(** * Virtual try-on client: prediction lifecycle, notifications and camera

    A shallow embedding of the three variants of [App.tsx] found in the
    repository:

    - [UrlInput]     : the variant with a URL text box and a file picker
                       (first document of [src/src/App.tsx]);
    - [InlineCamera] : the variant whose [handleCameraUpload] grabs one frame
                       inline ([src/unnamed/part_000]);
    - [ModalCamera]  : the variant with the [CameraModal] component
                       (second document of [src/src/App.tsx]).

    React state is a record, the [useState] setters are record updates, and
    each handler is a computation in a small state-and-exception monad that
    also logs the effects it issues ([fetch] calls, [setTimeout] calls, camera
    acquisitions).  The answer of the remote service is an argument of the
    handler: a handler consumes it only if it really issues the request.
    A handler runs to completion once its request is answered; [console.*]
    calls are not modelled. *)

From Stdlib Require Import ZArith List String Ascii Bool Lia DecimalString.
Import ListNotations.
Open Scope string_scope.

Set Warnings "-register-all".
Set Warnings "-automation".
Set Warnings "-abstract-large-number".

(* ================================================================== *)
(** ** JavaScript values *)

(** What [JSON.parse] can return.  Numbers are restricted to integers. *)
Inductive json : Type :=
| JNull
| JBool (b : bool)
| JNum (n : Z)
| JStr (s : string)
| JArr (items : list json)
| JObj (fields : list (string * json)).

(** A JavaScript value held in a state cell or obtained by a property
    access: either [undefined] or a JSON value. *)
Inductive jsval : Type :=
| Undefined
| Val (j : json).

Coercion Val : json >-> jsval.

Definition null : jsval := Val JNull.
Definition Str (s : string) : jsval := Val (JStr s).

(** [!!v] *)
Definition truthy (v : jsval) : bool :=
  match v with
  | Undefined => false
  | Val JNull => false
  | Val (JBool b) => b
  | Val (JNum n) => negb (n =? 0)%Z
  | Val (JStr s) => negb (s =? "")
  | Val (JArr _) => true
  | Val (JObj _) => true
  end.

(** [a || b] *)
Definition or_else (a b : jsval) : jsval := if truthy a then a else b.

(** [v === 'lit'] *)
Definition is_str (v : jsval) (lit : string) : bool :=
  match v with
  | Val (JStr s) => s =? lit
  | _ => false
  end.

(** [Array.isArray(v)] *)
Definition isArray (v : jsval) : bool :=
  match v with
  | Val (JArr _) => true
  | _ => false
  end.

(** [typeof v === 'object'] *)
Definition typeof_object (v : jsval) : bool :=
  match v with
  | Val JNull | Val (JArr _) | Val (JObj _) => true
  | _ => false
  end.

Fixpoint lookup (k : string) (fields : list (string * json)) : jsval :=
  match fields with
  | [] => Undefined
  | (k', v) :: rest => if k' =? k then Val v else lookup k rest
  end.

(** [v.k] for the property names the handlers read ([error], [id],
    [status], [output]): none of them exists on a primitive or on an array.
    [None] is the [TypeError] of reading a property of [null] or
    [undefined]. *)
Definition getProp (v : jsval) (k : string) : option jsval :=
  match v with
  | Undefined | Val JNull => None
  | Val (JObj fields) => Some (lookup k fields)
  | Val _ => Some Undefined
  end.

(** [v?.k] *)
Definition optProp (v : jsval) (k : string) : jsval :=
  match getProp v k with
  | Some x => x
  | None => Undefined
  end.

(** [v[0]]; [None] is again the [TypeError] on [null] and [undefined]. *)
Definition index0 (v : jsval) : option jsval :=
  match v with
  | Undefined | Val JNull => None
  | Val (JArr items) =>
      Some (match items with [] => Undefined | x :: _ => Val x end)
  | Val (JStr s) =>
      Some (match s with
            | EmptyString => Undefined
            | String c _ => Str (String c EmptyString)
            end)
  | Val (JObj fields) => Some (lookup "0" fields)
  | Val _ => Some Undefined
  end.

(** [v.length] of an array *)
Definition arrayLength (v : jsval) : nat :=
  match v with
  | Val (JArr items) => List.length items
  | _ => 0
  end.

Definition decimal (n : Z) : string := NilZero.string_of_int (Z.to_int n).

Definition join (sep : string) (parts : list string) : string :=
  match parts with
  | [] => ""
  | p :: rest => fold_left (fun acc q => acc ++ sep ++ q) rest p
  end.

(** [String(j)], the conversion behind [new Error(j).message] and behind
    template literals. *)
Fixpoint jsonToString (j : json) : string :=
  match j with
  | JNull => "null"
  | JBool true => "true"
  | JBool false => "false"
  | JNum n => decimal n
  | JStr s => s
  | JArr items =>
      join "," (map (fun x => match x with
                              | JNull => ""
                              | _ => jsonToString x
                              end) items)
  | JObj _ => "[object Object]"
  end.

Definition toString (v : jsval) : string :=
  match v with
  | Undefined => "undefined"
  | Val j => jsonToString j
  end.

(** *** [JSON.stringify] *)

Definition dquote : string := String (ascii_of_nat 34) EmptyString.
Definition backslash : string := String (ascii_of_nat 92) EmptyString.

Definition hexDigit (n : nat) : string :=
  String (ascii_of_nat (if (n <? 10)%nat then 48 + n else 87 + n)) EmptyString.

Definition escapeChar (c : ascii) : string :=
  let n := nat_of_ascii c in
  if (n =? 34)%nat then backslash ++ dquote
  else if (n =? 92)%nat then backslash ++ backslash
  else if (n =? 8)%nat then backslash ++ "b"
  else if (n =? 9)%nat then backslash ++ "t"
  else if (n =? 10)%nat then backslash ++ "n"
  else if (n =? 12)%nat then backslash ++ "f"
  else if (n =? 13)%nat then backslash ++ "r"
  else if (n <? 32)%nat then backslash ++ "u00" ++ hexDigit (n / 16) ++ hexDigit (n mod 16)
  else String c EmptyString.

Fixpoint escape (s : string) : string :=
  match s with
  | EmptyString => EmptyString
  | String c rest => escapeChar c ++ escape rest
  end.

Definition quote (s : string) : string := dquote ++ escape s ++ dquote.

Fixpoint JSON_stringify (j : json) : string :=
  match j with
  | JNull => "null"
  | JBool true => "true"
  | JBool false => "false"
  | JNum n => decimal n
  | JStr s => quote s
  | JArr items => "[" ++ join "," (map JSON_stringify items) ++ "]"
  | JObj fields =>
      "{" ++ join "," (map (fun kv => quote (fst kv) ++ ":" ++ JSON_stringify (snd kv))
                           fields) ++ "}"
  end.

(* ================================================================== *)
(** ** The remote service as seen through [fetch] *)

(** Outcome of [response.json()]. *)
Inductive parse_result : Type :=
| Parsed (data : json)
| SyntaxError (message : string).

Record response : Type := mkResponse {
  status : Z;
  statusText : string;
  body : parse_result
}.

(** [response.ok] *)
Definition ok (r : response) : bool :=
  ((200 <=? status r) && (status r <=? 299))%Z.

(** Outcome of [await fetch(...)]: the promise rejects (network failure) or
    resolves with a response, whatever its HTTP status. *)
Inductive fetch_outcome : Type :=
| Rejected (message : string)
| Resolved (r : response).

Definition API_BASE_URL : string := "https://api.fashn.ai/v1".

(** What a handler does to the world outside the React state. *)
Inductive effect : Type :=
| Fetch (method : string) (url : string) (payload : option json)
| SetTimeout (delay : nat)          (* setTimeout(() => setError(null), delay) *)
| GetUserMedia                      (* a media stream was handed out *)
| StopTracks.                       (* stream.getTracks().forEach(t => t.stop()) *)

Definition isFetch (e : effect) : bool :=
  match e with Fetch _ _ _ => true | _ => false end.

(** Whether a media stream handed out during the logged effects still has
    running tracks at the end. *)
Definition cameraLive (log : list effect) : bool :=
  fold_left (fun on e => match e with
                         | GetUserMedia => true
                         | StopTracks => false
                         | _ => on
                         end) log false.

(** Every value thrown in the handlers is an [Error] instance ([new Error],
    the [TypeError] of a property read or of [fetch], the [SyntaxError] of
    [response.json()]), so an exception is represented by its [message]. *)
Inductive result (A : Type) : Type :=
| Ok (a : A)
| Throw (message : string).
Arguments Ok {A} a.
Arguments Throw {A} message.

(** Message of the [TypeError] raised when [prop] is read from [null]
    (the wording of V8). *)
Definition nullPropertyMessage (prop : string) : string :=
  "Cannot read properties of null (reading '" ++ prop ++ "')".

(* ================================================================== *)
(** ** A state, exception and effect-log monad *)

Section HandlerMonad.
Context {S : Type}.

Definition M (A : Type) : Type :=
  S * list effect -> (S * list effect) * result A.

Definition ret {A} (a : A) : M A := fun w => (w, Ok a).

Definition bind {A B} (m : M A) (k : A -> M B) : M B :=
  fun w =>
    match m w with
    | (w', Ok a) => k a w'
    | (w', Throw e) => (w', Throw e)
    end.

Definition throw {A} (message : string) : M A := fun w => (w, Throw message).

(** [try { body } catch (error) { handler(error.message) }] *)
Definition try_catch (body : M unit) (handler : string -> M unit) : M unit :=
  fun w =>
    match body w with
    | (w', Ok a) => (w', Ok a)
    | (w', Throw e) => handler e w'
    end.

Definition get : M S := fun w => (w, Ok (fst w)).

Definition modify (f : S -> S) : M unit :=
  fun w => ((f (fst w), snd w), Ok tt).

Definition emit (e : effect) : M unit :=
  fun w => ((fst w, (snd w ++ [e])%list), Ok tt).

Definition when (b : bool) (m : M unit) : M unit :=
  if b then m else ret tt.

(** Runs a handler from the state [s]; an exception that leaves the handler
    is an unhandled rejection and changes nothing more. *)
Definition exec (m : M unit) (s : S) : S * list effect := fst (m (s, [])).
End HandlerMonad.

Arguments M : clear implicits.

Declare Scope handler_scope.
Delimit Scope handler_scope with handler.
Notation "x <- c1 ;; c2" := (bind c1 (fun x => c2))
  (at level 100, c1 at next level, right associativity) : handler_scope.
Notation "c1 ;; c2" := (bind c1 (fun _ => c2))
  (at level 100, right associativity) : handler_scope.
Open Scope handler_scope.

Section Requests.
Context {S : Type}.

(** [await fetch(url, {method, body})] answered by [net]. *)
Definition fetch (method url : string) (payload : option json)
           (net : fetch_outcome) : M S response :=
  emit (Fetch method url payload) ;;
  match net with
  | Rejected message => throw message
  | Resolved r => ret r
  end.

(** [await response.json()] *)
Definition json_of (r : response) : M S jsval :=
  match body r with
  | Parsed data => ret (Val data)
  | SyntaxError message => throw message
  end.

(** [await response.json().catch(() => null)] *)
Definition json_or_null (r : response) : jsval :=
  match body r with
  | Parsed data => Val data
  | SyntaxError _ => null
  end.

(** [v.k] inside a [try] block *)
Definition prop (v : jsval) (k : string) : M S jsval :=
  match getProp v k with
  | Some x => ret x
  | None => throw (nullPropertyMessage k)
  end.

Definition first (v : jsval) : M S jsval :=
  match index0 v with
  | Some x => ret x
  | None => throw (nullPropertyMessage "0")
  end.
End Requests.

(** The body of the [POST /run] request. *)
Definition runPayload (modelImage garmentImage : string) : json :=
  JObj [("model_image", JStr modelImage);
        ("garment_image", JStr garmentImage);
        ("category", JStr "auto")].

Definition statusUrl (id : jsval) : string :=
  API_BASE_URL ++ "/status/" ++ toString id.

Definition httpStatusLine (what : string) (r : response) : string :=
  what ++ " failed with status " ++ decimal (status r) ++ ": " ++ statusText r.

(** [!s] for a [string | null] cell *)
Definition present (s : option string) : bool :=
  match s with
  | Some x => negb (x =? "")
  | None => false
  end.

Definition text (s : option string) : string :=
  match s with
  | Some x => x
  | None => "null"
  end.

(* ================================================================== *)
(** ** State shared by the two variants that show notifications *)

Module AppState.

Inductive severity : Type := SevError | SevWarning | SevInfo.

Record ErrorState : Type := mkError {
  message : string;
  type : severity
}.

Record state : Type := mkState {
  isLoading : bool;
  modelPreview : option string;
  generatedResult : jsval;
  predictionId : jsval;
  predictionStatus : jsval;
  garmentUrl : string;
  error : option ErrorState
}.

(** The values given to [useState]. *)
Definition initial : state :=
  {| isLoading := false; modelPreview := None; generatedResult := null;
     predictionId := null; predictionStatus := null; garmentUrl := "";
     error := None |}.

Definition with_isLoading (b : bool) (s : state) : state :=
  mkState b (modelPreview s) (generatedResult s) (predictionId s)
          (predictionStatus s) (garmentUrl s) (error s).
Definition with_modelPreview (p : option string) (s : state) : state :=
  mkState (isLoading s) p (generatedResult s) (predictionId s)
          (predictionStatus s) (garmentUrl s) (error s).
Definition with_generatedResult (v : jsval) (s : state) : state :=
  mkState (isLoading s) (modelPreview s) v (predictionId s)
          (predictionStatus s) (garmentUrl s) (error s).
Definition with_predictionId (v : jsval) (s : state) : state :=
  mkState (isLoading s) (modelPreview s) (generatedResult s) v
          (predictionStatus s) (garmentUrl s) (error s).
Definition with_predictionStatus (v : jsval) (s : state) : state :=
  mkState (isLoading s) (modelPreview s) (generatedResult s) (predictionId s)
          v (garmentUrl s) (error s).
Definition with_garmentUrl (u : string) (s : state) : state :=
  mkState (isLoading s) (modelPreview s) (generatedResult s) (predictionId s)
          (predictionStatus s) u (error s).
Definition with_error (e : option ErrorState) (s : state) : state :=
  mkState (isLoading s) (modelPreview s) (generatedResult s) (predictionId s)
          (predictionStatus s) (garmentUrl s) e.

Definition setIsLoading (b : bool) : M state unit := modify (with_isLoading b).
Definition setModelPreview (p : option string) : M state unit :=
  modify (with_modelPreview p).
Definition setGeneratedResult (v : jsval) : M state unit :=
  modify (with_generatedResult v).
Definition setPredictionId (v : jsval) : M state unit :=
  modify (with_predictionId v).
Definition setPredictionStatus (v : jsval) : M state unit :=
  modify (with_predictionStatus v).
Definition setGarmentUrl (u : string) : M state unit := modify (with_garmentUrl u).
Definition setError (e : option ErrorState) : M state unit := modify (with_error e).

(** [showError(message, type)] *)
Definition showError (msg : string) (ty : severity) : M state unit :=
  setError (Some (mkError msg ty)) ;;
  emit (SetTimeout 5000).

(** The effect run once at page load: [param] is the [garment_image] query
    parameter and [wellFormed] tells whether [new URL(param)] succeeds.  It
    is the only place where the garment reference is set. *)
Definition loadGarment (param : option string) (wellFormed : bool) : M state unit :=
  if present param then
    if wellFormed then setGarmentUrl (text param)
    else showError "Invalid garment image URL provided" SevWarning
  else ret tt.

(** The condition under which the polling [useEffect] keeps an interval
    timer registered (it is cleared and re-evaluated whenever
    [predictionId] or [predictionStatus] changes). *)
Definition pollingActive (s : state) : bool :=
  truthy (predictionId s)
  && negb (is_str (predictionStatus s) "completed")
  && negb (is_str (predictionStatus s) "failed").

(** The reset run by the Try Again button (the same statements in
    [handleTryAgain] of the inline-camera variant and in the [onClick] of
    the modal-camera variant).  Emptying the file input is a change of the
    DOM, not of the state. *)
Definition handleTryAgain : M state unit :=
  setModelPreview None ;;
  setGeneratedResult null ;;
  setPredictionId null ;;
  setPredictionStatus null ;;
  setError None ;;
  setIsLoading false.

End AppState.

(* ================================================================== *)
(** ** The inline-camera variant *)

Module InlineCamera.
Import AppState.

Definition startPrediction (net : fetch_outcome) : M state unit :=
  s <- get ;;
  if negb (present (modelPreview s)) then
    showError "Please upload or take a photo of the model" SevWarning
  else if garmentUrl s =? "" then
    showError "Please provide a garment image URL" SevWarning
  else
    try_catch
      (setIsLoading true ;;
       setError None ;;
       response <- fetch "POST" (API_BASE_URL ++ "/run")
                     (Some (runPayload (text (modelPreview s)) (garmentUrl s))) net ;;
       when (negb (ok response))
         (let errorData := json_or_null response in
          throw (toString (or_else (optProp errorData "error")
                                   (Str (httpStatusLine "API request" response))))) ;;
       data <- json_of response ;;
       err <- prop data "error" ;;
       when (truthy err) (throw ("API Error: " ++ toString err)) ;;
       id <- prop data "id" ;;
       when (negb (truthy id)) (throw "Invalid response: missing prediction ID") ;;
       setPredictionId id ;;
       setPredictionStatus (Str "starting"))
      (fun msg =>
         showError msg SevError ;;
         setIsLoading false).

Definition checkPredictionStatus (net : fetch_outcome) : M state unit :=
  s <- get ;;
  if negb (truthy (predictionId s)) then ret tt
  else
    try_catch
      (response <- fetch "GET" (statusUrl (predictionId s)) None net ;;
       when (negb (ok response))
         (let errorData := json_or_null response in
          throw (toString (or_else (optProp errorData "error")
                                   (Str (httpStatusLine "Status check" response))))) ;;
       data <- json_of response ;;
       err <- prop data "error" ;;
       when (truthy err) (throw ("API Error: " ++ toString err)) ;;
       st <- prop data "status" ;;
       when (negb (truthy st)) (throw "Invalid response: missing status") ;;
       setPredictionStatus st ;;
       if is_str st "completed" then
         output <- prop data "output" ;;
         when (negb (truthy output) || negb (isArray output)
               || (arrayLength output =? 0)%nat)
           (throw "Invalid response: missing or empty output array") ;;
         img <- first output ;;
         setGeneratedResult img ;;
         setIsLoading false ;;
         setPredictionId null ;;
         setError None
       else if is_str st "failed" then
         err' <- prop data "error" ;;
         throw (toString (or_else err'
                  (Str "Prediction failed without specific error message")))
       else ret tt)
      (fun msg =>
         showError msg SevError ;;
         setIsLoading false ;;
         setPredictionId null).

(** What the browser answers during one run of [handleCameraUpload].
    The markup of this variant attaches [cameraInputRef] to no element, so
    [inputRef] is [false] in the page as it is. *)
Record camera : Type := mkCamera {
  inputRef : bool;              (* cameraInputRef.current is non-null *)
  supported : bool;             (* navigator.mediaDevices?.getUserMedia exists *)
  permission : result unit;     (* await getUserMedia({video: true}) *)
  playback : result unit;       (* await video.play() *)
  context2d : bool;             (* canvas.getContext('2d') is non-null *)
  dataUrl : result string       (* canvas.toDataURL('image/jpeg') *)
}.

Definition await {A} (r : result A) : M state A :=
  match r with
  | Ok a => ret a
  | Throw msg => throw msg
  end.

Definition handleCameraUpload (cam : camera) : M state unit :=
  if negb (inputRef cam) then ret tt
  else
    try_catch
      (if negb (supported cam) then
         showError "Camera access is not supported in your browser" SevError
       else
         await (permission cam) ;;
         emit GetUserMedia ;;
         await (playback cam) ;;
         when (negb (context2d cam)) (throw "Could not get canvas context") ;;
         emit StopTracks ;;
         url <- await (dataUrl cam) ;;
         setModelPreview (Some url) ;;
         setError None)
      (fun _ =>
         showError "Failed to access camera. Please check permissions." SevError).

End InlineCamera.

(* ================================================================== *)
(** ** The modal-camera variant *)

Module ModalCamera.
Import AppState.

(** [typeof e === 'object' ? JSON.stringify(e) : e], as the argument of
    [new Error].  It is only evaluated on a truthy [e]. *)
Definition describe (e : jsval) : string :=
  match e with
  | Val j => if typeof_object e then JSON_stringify j else jsonToString j
  | Undefined => toString e
  end.

Definition startPrediction (net : fetch_outcome) : M state unit :=
  s <- get ;;
  if negb (present (modelPreview s)) then
    showError "Please upload or take a photo of the model" SevWarning
  else if garmentUrl s =? "" then
    showError "Please provide a garment image URL" SevWarning
  else
    try_catch
      (setIsLoading true ;;
       setError None ;;
       response <- fetch "POST" (API_BASE_URL ++ "/run")
                     (Some (runPayload (text (modelPreview s)) (garmentUrl s))) net ;;
       data <- json_of response ;;
       when (negb (ok response))
         (throw (toString (or_else (optProp data "error")
                                   (Str (httpStatusLine "API request" response))))) ;;
       err <- prop data "error" ;;
       when (truthy err) (throw (describe err)) ;;
       id <- prop data "id" ;;
       when (negb (truthy id)) (throw "Invalid response: missing prediction ID") ;;
       setPredictionId id ;;
       setPredictionStatus (Str "starting"))
      (fun msg =>
         showError msg SevError ;;
         setIsLoading false).

Definition checkPredictionStatus (net : fetch_outcome) : M state unit :=
  s <- get ;;
  if negb (truthy (predictionId s)) then ret tt
  else
    try_catch
      (response <- fetch "GET" (statusUrl (predictionId s)) None net ;;
       data <- json_of response ;;
       when (negb (ok response))
         (throw (toString (or_else (optProp data "error")
                                   (Str (httpStatusLine "Status check" response))))) ;;
       err <- prop data "error" ;;
       when (truthy err) (throw (describe err)) ;;
       st <- prop data "status" ;;
       when (negb (truthy st)) (throw "Invalid response: missing status") ;;
       setPredictionStatus st ;;
       if is_str st "completed" then
         output <- prop data "output" ;;
         when (negb (truthy output) || negb (isArray output)
               || (arrayLength output =? 0)%nat)
           (throw "Invalid response: missing or empty output array") ;;
         img <- first output ;;
         setGeneratedResult img ;;
         setIsLoading false ;;
         setPredictionId null ;;
         setError None
       else if is_str st "failed" then
         err' <- prop data "error" ;;
         throw (toString (or_else err'
                  (Str "Prediction failed without specific error message")))
       else ret tt)
      (fun msg =>
         showError msg SevError ;;
         setIsLoading false ;;
         setPredictionId null).

(** [handleCameraCapture] *)
Definition handleCameraCapture (image : string) : M state unit :=
  setModelPreview (Some image).

End ModalCamera.

(* ================================================================== *)
(** ** The URL-input variant: no notification state at all *)

Module UrlInput.

Record state : Type := mkState {
  modelUrl : string;
  isLoading : bool;
  modelPreview : option string;
  generatedResult : jsval;
  predictionId : jsval;
  predictionStatus : jsval;
  garmentUrl : string
}.

Definition initial : state :=
  {| modelUrl := ""; isLoading := false; modelPreview := None;
     generatedResult := null; predictionId := null;
     predictionStatus := null; garmentUrl := "" |}.

Definition setModelUrl (u : string) : M state unit :=
  modify (fun s => mkState u (isLoading s) (modelPreview s) (generatedResult s)
                           (predictionId s) (predictionStatus s) (garmentUrl s)).
Definition setIsLoading (b : bool) : M state unit :=
  modify (fun s => mkState (modelUrl s) b (modelPreview s) (generatedResult s)
                           (predictionId s) (predictionStatus s) (garmentUrl s)).
Definition setModelPreview (p : option string) : M state unit :=
  modify (fun s => mkState (modelUrl s) (isLoading s) p (generatedResult s)
                           (predictionId s) (predictionStatus s) (garmentUrl s)).
Definition setGeneratedResult (v : jsval) : M state unit :=
  modify (fun s => mkState (modelUrl s) (isLoading s) (modelPreview s) v
                           (predictionId s) (predictionStatus s) (garmentUrl s)).
Definition setPredictionId (v : jsval) : M state unit :=
  modify (fun s => mkState (modelUrl s) (isLoading s) (modelPreview s)
                           (generatedResult s) v (predictionStatus s) (garmentUrl s)).
Definition setPredictionStatus (v : jsval) : M state unit :=
  modify (fun s => mkState (modelUrl s) (isLoading s) (modelPreview s)
                           (generatedResult s) (predictionId s) v (garmentUrl s)).

Definition pollingActive (s : state) : bool :=
  truthy (predictionId s)
  && negb (is_str (predictionStatus s) "completed")
  && negb (is_str (predictionStatus s) "failed").


Definition startPrediction (net : fetch_outcome) : M state unit :=
  s <- get ;;
  if negb (present (modelPreview s)) || (garmentUrl s =? "") then ret tt
  else
    try_catch
      (setIsLoading true ;;
       response <- fetch "POST" (API_BASE_URL ++ "/run")
                     (Some (runPayload (text (modelPreview s)) (garmentUrl s))) net ;;
       data <- json_of response ;;
       err <- prop data "error" ;;
       when (truthy err) (throw (toString err)) ;;
       id <- prop data "id" ;;
       setPredictionId id ;;
       setPredictionStatus (Str "starting"))
      (fun _ => setIsLoading false).

Definition checkPredictionStatus (net : fetch_outcome) : M state unit :=
  s <- get ;;
  if negb (truthy (predictionId s)) then ret tt
  else
    try_catch
      (response <- fetch "GET" (statusUrl (predictionId s)) None net ;;
       data <- json_of response ;;
       st <- prop data "status" ;;
       setPredictionStatus st ;;
       (* [data.output] is read ahead of the test; the read cannot throw
          once [data.status] has been read *)
       output <- prop data "output" ;;
       if is_str st "completed" && truthy output then
         img <- first output ;;
         setGeneratedResult img ;;
         setIsLoading false ;;
         setPredictionId null
       else if is_str st "failed" then
         setIsLoading false ;;
         setPredictionId null
       else ret tt)
      (fun _ => ret tt).

Definition handleTryAgain : M state unit :=
  setModelUrl "" ;;
  setModelPreview None ;;
  setGeneratedResult null ;;
  setPredictionId null ;;
  setPredictionStatus null ;;
  setIsLoading false.

End UrlInput.

(* ================================================================== *)
(** ** Notifications on a time line *)

Module Timeline.
Import AppState.

(** The page at some instant: the React state, the time in milliseconds
    and the instants at which the pending [() => setError(null)] callbacks
    registered by [showError] fall due.  No [clearTimeout] exists in the
    sources, so a registered callback always fires. *)
Record world : Type := mkWorld {
  ui : state;
  clock : nat;
  expiries : list nat
}.

Definition start : world := mkWorld initial 0 [].

Definition scheduled (now : nat) (log : list effect) : list nat :=
  flat_map (fun e => match e with
                     | SetTimeout delay => [now + delay]
                     | _ => []
                     end) log.

(** Runs a handler at the current instant. *)
Definition perform (h : M state unit) (w : world) : world :=
  let r := exec h (ui w) in
  mkWorld (fst r) (clock w) (expiries w ++ scheduled (clock w) (snd r))%list.

Definition due (t d : nat) : bool := (d <=? t)%nat.

(** Lets [dt] milliseconds pass with no other event: every callback that
    falls due runs [setError(null)]. *)
Definition elapse (dt : nat) (w : world) : world :=
  let t := clock w + dt in
  mkWorld (if existsb (due t) (expiries w) then with_error None (ui w) else ui w)
          t
          (filter (fun d => negb (due t d)) (expiries w)).

Definition notify (msg : string) (ty : severity) : world -> world :=
  perform (showError msg ty).

End Timeline.

(* ================================================================== *)
(** ** The [CameraModal] component of the modal-camera variant *)

Module CameraModal.

Inductive facing : Type := user | environment.

(** A video frame or a canvas: rows of pixels; [0] is a blank pixel. *)
Definition pixel : Type := nat.
Definition bitmap : Type := list (list pixel).

Definition videoWidth (video : bitmap) : nat := List.length (hd [] video).
Definition videoHeight (video : bitmap) : nat := List.length video.

(** The current transformation of a 2D context, for the axis-aligned maps
    built from [translate] and [scale]: [x' = a x + e], [y' = d y + f]. *)
Record matrix : Type := mkMatrix { a : Z; d : Z; e : Z; f : Z }.

Definition identity : matrix := mkMatrix 1 1 0 0.

Definition translate (tx ty : Z) (m : matrix) : matrix :=
  mkMatrix (a m) (d m) (e m + a m * tx) (f m + d m * ty).

Definition scale (sx sy : Z) (m : matrix) : matrix :=
  mkMatrix (a m * sx) (d m * sy) (e m) (f m).

(** Source pixel [i] covers [[i, i+1]]; under a unit scaling [k] and offset
    [o] it lands on the canvas cell whose lower edge is
    [min (k i + o) (k (i+1) + o)].  [source k o c] is the source index that
    lands on canvas cell [c]. *)
Definition source (k o c : Z) : Z :=
  if (0 <? k)%Z then (c - o)%Z else (o - 1 - c)%Z.

Definition pick {A} (default : A) (l : list A) (i : Z) : A :=
  if (i <? 0)%Z then default else nth (Z.to_nat i) l default.

(** [ctx.drawImage(video, 0, 0)] on a blank canvas of [w] by [h] cells,
    for [|a| = |d| = 1]. *)
Definition drawImage (m : matrix) (video : bitmap) (w h : nat) : bitmap :=
  map (fun cy =>
         let row := pick [] video (source (d m) (f m) (Z.of_nat cy)) in
         map (fun cx => pick 0 row (source (a m) (e m) (Z.of_nat cx))) (seq 0 w))
      (seq 0 h).

(** The [style] of the [video] element: the preview is flipped for the
    front camera only. *)
Definition previewFlipped (facingMode : facing) : bool :=
  match facingMode with
  | user => true
  | environment => false
  end.

Record modal : Type := mkModal {
  mounted : bool;            (* videoRef.current is non-null *)
  facingMode : facing;
  streamRef : option nat;    (* streamRef.current *)
  running : list nat;        (* streams whose tracks were not stopped *)
  pending : nat;             (* getUserMedia calls still unanswered *)
  issued : nat               (* streams handed out so far *)
}.

Definition stopTracks (id : nat) (m : modal) : modal :=
  mkModal (mounted m) (facingMode m) (streamRef m)
          (filter (fun x => negb (x =? id)%nat) (running m))
          (pending m) (issued m).

Definition stopCamera (m : modal) : modal :=
  match streamRef m with
  | Some id => stopTracks id m
  | None => m
  end.

(** [startCamera] up to its [await]: the previous stream, if any, is
    stopped and [getUserMedia] is called. *)
Definition startCamera_call (m : modal) : modal :=
  let m' := stopCamera m in
  mkModal (mounted m') (facingMode m') (streamRef m') (running m')
          (S (pending m')) (issued m').

(** The effect clean-up followed by the removal of the component:
    [onClose] makes the parent stop rendering the modal. *)
Definition unmount (m : modal) : modal :=
  if mounted m then
    let m' := stopCamera m in
    mkModal false (facingMode m') (streamRef m') (running m')
            (pending m') (issued m')
  else m.

(** [startCamera] after its [await], when [getUserMedia] resolves. *)
Definition startCamera_granted (m : modal) : modal :=
  match pending m with
  | O => m
  | S n =>
      let id := issued m in
      mkModal (mounted m) (facingMode m)
              (if mounted m then Some id else streamRef m)
              (running m ++ [id])%list n (S id)
  end.

(** [startCamera] after its [await], when [getUserMedia] rejects. *)
Definition startCamera_denied (m : modal) : modal :=
  match pending m with
  | O => m
  | S n =>
      unmount (mkModal (mounted m) (facingMode m) (streamRef m) (running m)
                       n (issued m))
  end.

(** [toggleCamera], then the re-run of the effect that depends on
    [startCamera]: clean-up, then a new call. *)
Definition toggleCamera (m : modal) : modal :=
  if mounted m then
    let m' := stopCamera m in
    startCamera_call
      (mkModal (mounted m')
               (match facingMode m' with user => environment | environment => user end)
               (streamRef m') (running m') (pending m') (issued m'))
  else m.

(** [takePhoto]: the picture given to [onCapture] (before its JPEG
    encoding), if any. *)
Definition takePhoto (video : bitmap) (context2d : bool) (m : modal)
  : modal * option bitmap :=
  if negb (mounted m) then (m, None)
  else
    let w := videoWidth video in
    let h := videoHeight video in
    if negb context2d then (m, None)
    else
      let ctx := scale (-1) 1 (translate (Z.of_nat w) 0 identity) in
      let image := drawImage ctx video w h in
      (unmount (stopCamera m), Some image).

(** The modal right after [setShowCamera(true)]: mounted, effect run. *)
Definition opened : modal :=
  startCamera_call (mkModal true user None [] 0 0).

Inductive event : Type :=
| Granted
| Denied
| Toggle
| Close
| Shutter (video : bitmap) (context2d : bool).

Definition step (m : modal) (ev : event) : modal :=
  match ev with
  | Granted => startCamera_granted m
  | Denied => startCamera_denied m
  | Toggle => toggleCamera m
  | Close => unmount m
  | Shutter video context2d => fst (takePhoto video context2d m)
  end.

Definition run (evs : list event) : modal := fold_left step evs opened.

(** The component is gone and no request is outstanding. *)
Definition finished (m : modal) : bool :=
  negb (mounted m) && (pending m =? 0)%nat.

(** Every row of the frame has the width of the video. *)
Definition rectangular (video : bitmap) : Prop :=
  Forall (fun row => List.length row = videoWidth video) video.

(** The frame flipped left to right. *)
Definition mirrored (video : bitmap) : bitmap := map (@rev pixel) video.

End CameraModal.

(* ================================================================== *)
(** ** Outcomes of a status check *)

Module Outcome.
Import AppState.

(** The answers on which a status check cannot go on: the request is
    rejected, the HTTP status is not a success, the body is not JSON, or
    the body has a shape the handler cannot use. *)
Inductive failed_check : fetch_outcome -> Prop :=
| network_error msg : failed_check (Rejected msg)
| http_error r : ok r = false -> failed_check (Resolved r)
| unparseable r msg : body r = SyntaxError msg -> failed_check (Resolved r)
| not_an_object r data :
    body r = Parsed data -> getProp data "error" = None ->
    failed_check (Resolved r)
| api_error r data e :
    body r = Parsed data -> getProp data "error" = Some e -> truthy e = true ->
    failed_check (Resolved r)
| missing_status r data v :
    body r = Parsed data -> getProp data "status" = Some v -> truthy v = false ->
    failed_check (Resolved r)
| unusable_output r data out :
    body r = Parsed data ->
    getProp data "status" = Some (Str "completed") ->
    getProp data "output" = Some out ->
    truthy out && isArray out && negb (arrayLength out =? 0)%nat = false ->
    failed_check (Resolved r).

(** Where a failed check of a job of [s] must leave the page: an error
    notification is up and its expiry registered, nothing is loading, no
    job id is kept, the polling timer is gone, and the request of the
    check is the only request made. *)
Definition idle_after_failure (s : state) (out : state * list effect) : Prop :=
  exists msg,
    error (fst out) = Some (mkError msg SevError)
    /\ predictionId (fst out) = null
    /\ isLoading (fst out) = false
    /\ pollingActive (fst out) = false
    /\ modelPreview (fst out) = modelPreview s
    /\ generatedResult (fst out) = generatedResult s
    /\ garmentUrl (fst out) = garmentUrl s
    /\ snd out = [Fetch "GET" (statusUrl (predictionId s)) None; SetTimeout 5000].

(** The state after the [catch] block of the status check. *)
Definition aborted (msg : string) (s : state) : state :=
  with_predictionId null
    (with_isLoading false (with_error (Some (mkError msg SevError)) s)).

(** The state after the [completed] branch of the status check. *)
Definition resolved (img : jsval) (s : state) : state :=
  with_error None
    (with_predictionId null
       (with_isLoading false
          (with_generatedResult img
             (with_predictionStatus (Str "completed") s)))).

(** The state after the [catch] block of [startPrediction]. *)
Definition rejected (msg : string) (s : state) : state :=
  with_isLoading false (with_error (Some (mkError msg SevError)) s).

(** The request issued by [startPrediction]. *)
Definition submitRequest (s : state) : effect :=
  Fetch "POST" (API_BASE_URL ++ "/run")
        (Some (runPayload (text (modelPreview s)) (garmentUrl s))).

(** The state after a submission that went through. *)
Definition submitted (id : jsval) (s : state) : state :=
  with_predictionStatus (Str "starting")
    (with_predictionId id (with_error None (with_isLoading true s))).

End Outcome.

(** The warning raised by the guards at the top of [startPrediction]. *)
Definition missingInput (s : AppState.state) : AppState.ErrorState :=
  if present (AppState.modelPreview s)
  then AppState.mkError "Please provide a garment image URL" AppState.SevWarning
  else AppState.mkError "Please upload or take a photo of the model"
                        AppState.SevWarning.

(* ================================================================== *)
(** ** Sample data *)

Module Samples.

Definition answer (data : json) : fetch_outcome :=
  Resolved (mkResponse 200 "OK" (Parsed data)).

Definition completedJob : json :=
  JObj [("status", JStr "completed");
        ("output", JArr [JStr "https://x/result.jpg"])].

Definition emptyOutput : json :=
  JObj [("status", JStr "completed"); ("output", JArr [])].

Definition queuedJob : json := JObj [("status", JStr "queued")].

Definition noId : json := JObj [].

Definition serverDown : fetch_outcome :=
  Resolved (mkResponse 500 "Internal Server Error"
                       (SyntaxError "Unexpected token < in JSON at position 0")).

(** A job being polled, in the variants with notifications. *)
Definition polling : AppState.state :=
  AppState.mkState true (Some "data:image/jpeg;base64,AAAA") null
                   (Str "job1") (Str "starting")
                   "https://shop.example/shirt.jpg" None.

(** A finished job showing its result. *)
Definition completed : AppState.state :=
  AppState.mkState false (Some "data:image/jpeg;base64,AAAA")
                   (Str "https://x/result.jpg") null (Str "completed")
                   "https://shop.example/shirt.jpg" None.

(** Inputs chosen, nothing submitted yet. *)
Definition ready : AppState.state :=
  AppState.mkState false (Some "data:image/jpeg;base64,AAAA") null null null
                   "https://shop.example/shirt.jpg" None.

Definition urlPolling : UrlInput.state :=
  UrlInput.mkState "" true (Some "data:image/jpeg;base64,AAAA") null
                   (Str "job1") (Str "starting")
                   "https://shop.example/shirt.jpg".

Definition urlReady : UrlInput.state :=
  UrlInput.mkState "" false (Some "data:image/jpeg;base64,AAAA") null null null
                   "https://shop.example/shirt.jpg".

(** The modal after the user switched to the back camera. *)
Definition backCamera : CameraModal.modal :=
  CameraModal.run [CameraModal.Granted; CameraModal.Toggle; CameraModal.Granted].

Definition frame : CameraModal.bitmap := [[1; 2; 3]; [4; 5; 6]].

(** The browser during a capture whose canvas gives no 2D context. *)
Definition noContext : InlineCamera.camera :=
  InlineCamera.mkCamera true true (Ok tt) (Ok tt) false
                        (Ok "data:image/jpeg;base64,AAAA").


End Samples.

(* ================================================================== *)
(** ** Choosing a photo from a file *)

Module FileUpload.
Import AppState.

(** The file picked in the file input: its declared type and what
    [FileReader.readAsDataURL] makes of it, a data URL or a read error. *)
Record file : Type := mkFile {
  mime : string;               (* file.type *)
  contents : result string     (* reader.result, or the failure of the read *)
}.

(** [handleFileUpload] of the two variants with notifications, together
    with the callbacks it installs, run when the read has ended.  A failed
    read fires [onerror] and then [onloadend], with [reader.result] null. *)
Definition handleFileUpload (picked : option file) : M state unit :=
  match picked with
  | None => showError "No file selected" SevWarning
  | Some f =>
      if negb (prefix "image/" (mime f)) then
        showError "Please select an image file" SevError
      else
        match contents f with
        | Ok url =>
            setModelPreview (Some url) ;;
            setError None
        | Throw _ =>
            showError "Error reading file" SevError ;;
            setModelPreview None ;;
            setError None
        end
  end.


(** The page-load effect of the URL-input variant: a malformed garment URL
    is only logged. *)
Definition loadGarment_url (param : option string) (wellFormed : bool)
  : M UrlInput.state unit :=
  if present param then
    if wellFormed then
      modify (fun s => UrlInput.mkState (UrlInput.modelUrl s) (UrlInput.isLoading s)
                         (UrlInput.modelPreview s) (UrlInput.generatedResult s)
                         (UrlInput.predictionId s) (UrlInput.predictionStatus s)
                         (text param))
    else ret tt
  else ret tt.

End FileUpload.

(* ================================================================== *)
(** ** What the page renders from the state *)

Module View.
Import AppState.

(** The [disabled] attribute of the Generate button. *)
Definition generateDisabled (s : state) : bool :=
  negb (present (modelPreview s)) || (garmentUrl s =? "") || isLoading s.

(** The label of the Generate button. *)
Definition buttonLabel (s : state) : string :=
  if isLoading s then
    if truthy (predictionStatus s)
    then "Status: " ++ toString (predictionStatus s)
    else "Generating..."
  else "Generate Try-On".

(** The Try Again button is rendered with the result. *)
Definition tryAgainShown (s : state) : bool := truthy (generatedResult s).

(** The three images of the page and the message of their [onError]. *)
Inductive picture : Type := GarmentImage | ModelImage | ResultImage.

Definition rendered (p : picture) (s : state) : bool :=
  match p with
  | GarmentImage => negb (garmentUrl s =? "")
  | ModelImage => present (modelPreview s)
  | ResultImage => truthy (generatedResult s)
  end.

Definition loadFailure (p : picture) : string :=
  match p with
  | GarmentImage => "Failed to load garment image"
  | ModelImage => "Failed to load model image"
  | ResultImage => "Failed to load result image"
  end.

(** The same attributes in the URL-input variant. *)
Definition generateDisabled_url (s : UrlInput.state) : bool :=
  negb (present (UrlInput.modelPreview s)) || (UrlInput.garmentUrl s =? "")
  || UrlInput.isLoading s.

End View.

(* ================================================================== *)
(** ** Sessions: what the user and the browser can make the page do *)

Module Session.
Import AppState Timeline.

Inductive variant : Type := Inline | Modal.

Definition startPredictionOf (v : variant) : fetch_outcome -> M state unit :=
  match v with
  | Inline => InlineCamera.startPrediction
  | Modal => ModalCamera.startPrediction
  end.

Definition checkPredictionStatusOf (v : variant) : fetch_outcome -> M state unit :=
  match v with
  | Inline => InlineCamera.checkPredictionStatus
  | Modal => ModalCamera.checkPredictionStatus
  end.

Inductive event : Type :=
| PageLoad (param : option string) (wellFormed : bool)
| ChooseFile (picked : option FileUpload.file)
| InlinePhoto (cam : InlineCamera.camera)
| ModalPhoto (image : string)
| Generate (net : fetch_outcome)
| Tick (net : fetch_outcome)
| TryAgain
| ImageFailed (p : View.picture)
| Wait (dt : nat).

(** The handler an event runs in the state [s].  A control that is not
    rendered, a disabled button and a timer that is not registered run
    nothing. *)
Definition handler (v : variant) (ev : event) (s : state) : M state unit :=
  match ev with
  | PageLoad param wellFormed => loadGarment param wellFormed
  | ChooseFile picked => FileUpload.handleFileUpload picked
  | InlinePhoto cam =>
      match v with
      | Inline => InlineCamera.handleCameraUpload cam
      | Modal => ret tt
      end
  | ModalPhoto image =>
      match v with
      | Inline => ret tt
      | Modal => ModalCamera.handleCameraCapture image
      end
  | Generate net =>
      if View.generateDisabled s then ret tt else startPredictionOf v net
  | Tick net =>
      if pollingActive s then checkPredictionStatusOf v net else ret tt
  | TryAgain =>
      if View.tryAgainShown s then handleTryAgain else ret tt
  | ImageFailed p =>
      if View.rendered p s then showError (View.loadFailure p) SevError else ret tt
  | Wait _ => ret tt
  end.

Definition step (v : variant) (w : world) (ev : event) : world :=
  match ev with
  | Wait dt => elapse dt w
  | _ => perform (handler v ev (ui w)) w
  end.

Definition run (v : variant) (evs : list event) : world :=
  fold_left (step v) evs start.


(** Every pending expiry is ahead of the clock by at most 5 seconds, and a
    notification on screen has an expiry pending. *)
Definition expiring (w : world) : Prop :=
  Forall (fun d => clock w < d <= clock w + 5000) (expiries w)
  /\ (error (ui w) <> None -> expiries w <> []).

(** An outcome that leaves the job alone. *)
Definition job_untouched (s : state) (out : state * list effect) : Prop :=
  isLoading (fst out) = isLoading s
  /\ predictionId (fst out) = predictionId s
  /\ predictionStatus (fst out) = predictionStatus s.

(** An outcome whose timers all run after 5 seconds and whose notification,
    if any, was there from the start or comes with a timer. *)
Definition timed (s : state) (out : state * list effect) : Prop :=
  (forall d, In (SetTimeout d) (snd out) -> d = 5000)
  /\ (error (fst out) <> None ->
      error (fst out) = error s \/ In (SetTimeout 5000) (snd out)).

End Session.

(* ================================================================== *)
(** ** The ways a handler can end *)

Module Cases.
Import AppState Outcome.

(** How a status check started in [s] can end. *)
Inductive check_case (s : state) : state * list effect -> Prop :=
| check_skipped :
    truthy (predictionId s) = false ->
    check_case s (s, [])
| check_running v :
    truthy (predictionId s) = true -> truthy v = true ->
    is_str v "completed" = false -> is_str v "failed" = false ->
    check_case s (with_predictionStatus v s,
                  [Fetch "GET" (statusUrl (predictionId s)) None])
| check_resolved (img : json) :
    truthy (predictionId s) = true ->
    check_case s (resolved img s,
                  [Fetch "GET" (statusUrl (predictionId s)) None])
| check_aborted msg :
    truthy (predictionId s) = true ->
    check_case s (aborted msg s,
                  [Fetch "GET" (statusUrl (predictionId s)) None; SetTimeout 5000])
| check_aborted_late msg v :
    truthy (predictionId s) = true ->
    v = Str "completed" \/ v = Str "failed" ->
    check_case s (aborted msg (with_predictionStatus v s),
                  [Fetch "GET" (statusUrl (predictionId s)) None; SetTimeout 5000]).

(** How a submission started in [s] can end. *)
Inductive submit_case (s : state) : state * list effect -> Prop :=
| submit_warned :
    present (modelPreview s) = false \/ garmentUrl s = "" ->
    submit_case s (with_error (Some (missingInput s)) s, [SetTimeout 5000])
| submit_sent id :
    present (modelPreview s) = true -> garmentUrl s <> "" ->
    truthy id = true ->
    submit_case s (submitted id s, [submitRequest s])
| submit_rejected msg :
    present (modelPreview s) = true -> garmentUrl s <> "" ->
    submit_case s (rejected msg s, [submitRequest s; SetTimeout 5000]).

(** The state with the text of its notification blanked. *)
Definition blank (s : state) : state :=
  with_error (option_map (fun e => mkError "" (type e)) (error s)) s.

(** How an inline capture started in [s] can end. *)
Inductive capture_case (s : state) : state * list effect -> Prop :=
| capture_skipped : capture_case s (s, [])
| capture_unsupported :
    capture_case s
      (with_error (Some (mkError "Camera access is not supported in your browser"
                                 SevError)) s,
       [SetTimeout 5000])
| capture_denied :
    capture_case s
      (with_error (Some (mkError "Failed to access camera. Please check permissions."
                                 SevError)) s,
       [SetTimeout 5000])
| capture_leaked :
    capture_case s
      (with_error (Some (mkError "Failed to access camera. Please check permissions."
                                 SevError)) s,
       [GetUserMedia; SetTimeout 5000])
| capture_unencoded :
    capture_case s
      (with_error (Some (mkError "Failed to access camera. Please check permissions."
                                 SevError)) s,
       [GetUserMedia; StopTracks; SetTimeout 5000])
| capture_taken url :
    capture_case s
      (with_error None (with_modelPreview (Some url) s),
       [GetUserMedia; StopTracks]).

Definition succeeded {A} (r : result A) : bool :=
  match r with
  | Ok _ => true
  | Throw _ => false
  end.

End Cases.

(* ================================================================== *)
(** ** Using the camera modal one step at a time *)

Module CameraUse.
Import CameraModal.



End CameraUse.

(* ================================================================== *)
(** * Properties *)

Arguments ok : simpl never.
Arguments statusUrl : simpl never.
Arguments httpStatusLine : simpl never.
Arguments toString : simpl never.
Arguments getProp : simpl never.
Arguments nullPropertyMessage : simpl never.
Arguments JSON_stringify : simpl never.

(** Unfolds the monad so that a handler becomes a plain expression. *)
Ltac unfold_monad :=
  unfold fetch, json_of, json_or_null, prop, first, when, InlineCamera.await in *;
  unfold exec, try_catch, bind, ret, throw, get, modify, emit in *.

Ltac unfold_setters :=
  unfold AppState.showError, AppState.setIsLoading, AppState.setModelPreview,
    AppState.setGeneratedResult, AppState.setPredictionId,
    AppState.setPredictionStatus, AppState.setGarmentUrl, AppState.setError,
    UrlInput.setModelUrl, UrlInput.setIsLoading, UrlInput.setModelPreview,
    UrlInput.setGeneratedResult, UrlInput.setPredictionId,
    UrlInput.setPredictionStatus in *.

Ltac run_handler := unfold_setters; unfold_monad; cbn.

(** ** The guard at the top of the status check *)

Section NoJob.
Variable net : fetch_outcome.

Lemma UrlInput_check_guard (s : UrlInput.state) :
  truthy (UrlInput.predictionId s) = false ->
  exec (UrlInput.checkPredictionStatus net) s = (s, []).
Proof.
  intros H. unfold UrlInput.checkPredictionStatus. run_handler.
  rewrite H. reflexivity.
Qed.

Lemma InlineCamera_check_guard (s : AppState.state) :
  truthy (AppState.predictionId s) = false ->
  exec (InlineCamera.checkPredictionStatus net) s = (s, []).
Proof.
  intros H. unfold InlineCamera.checkPredictionStatus. run_handler.
  rewrite H. reflexivity.
Qed.

Lemma ModalCamera_check_guard (s : AppState.state) :
  truthy (AppState.predictionId s) = false ->
  exec (ModalCamera.checkPredictionStatus net) s = (s, []).
Proof.
  intros H. unfold ModalCamera.checkPredictionStatus. run_handler.
  rewrite H. reflexivity.
Qed.
End NoJob.

(** C10: with no job id set, the status check of every variant returns at
    once: the effect log stays empty (no request is issued, no timer is
    registered) and the whole state, hence preview, result, status, loading
    flag and notification, is the one it started from, whatever the remote
    service would have answered. *)
Theorem status_check_without_job_is_noop
  (net : fetch_outcome) (s1 : UrlInput.state) (s : AppState.state)
  (H1 : truthy (UrlInput.predictionId s1) = false)
  (H : truthy (AppState.predictionId s) = false) :
  exec (UrlInput.checkPredictionStatus net) s1 = (s1, [])
  /\ exec (InlineCamera.checkPredictionStatus net) s = (s, [])
  /\ exec (ModalCamera.checkPredictionStatus net) s = (s, []).
Proof.
  repeat split.
  - now apply UrlInput_check_guard.
  - now apply InlineCamera_check_guard.
  - now apply ModalCamera_check_guard.
Qed.

Lemma status_check_without_job_is_noop_witness :
  exec (UrlInput.checkPredictionStatus
          (Samples.answer Samples.completedJob)) UrlInput.initial
  = (UrlInput.initial, [])
  /\ exec (InlineCamera.checkPredictionStatus
             (Samples.answer Samples.completedJob)) AppState.initial
     = (AppState.initial, [])
  /\ exec (ModalCamera.checkPredictionStatus
             (Samples.answer Samples.completedJob)) AppState.initial
     = (AppState.initial, []).
Proof.
  apply (status_check_without_job_is_noop
           (Samples.answer Samples.completedJob)
           UrlInput.initial AppState.initial); reflexivity.
Defined.

(** ** Submitting with a missing input *)

Lemma InlineCamera_submit_guard (net : fetch_outcome) (s : AppState.state) :
  present (AppState.modelPreview s) = false \/ AppState.garmentUrl s = "" ->
  exec (InlineCamera.startPrediction net) s
  = (AppState.with_error (Some (missingInput s)) s, [SetTimeout 5000]).
Proof.
  intros H. unfold InlineCamera.startPrediction, missingInput. run_handler.
  destruct (present (AppState.modelPreview s)) eqn:Hp; cbn.
  - destruct H as [H | H]; [discriminate |].
    rewrite H. reflexivity.
  - reflexivity.
Qed.

Lemma ModalCamera_submit_guard (net : fetch_outcome) (s : AppState.state) :
  present (AppState.modelPreview s) = false \/ AppState.garmentUrl s = "" ->
  exec (ModalCamera.startPrediction net) s
  = (AppState.with_error (Some (missingInput s)) s, [SetTimeout 5000]).
Proof.
  intros H. unfold ModalCamera.startPrediction, missingInput. run_handler.
  destruct (present (AppState.modelPreview s)) eqn:Hp; cbn.
  - destruct H as [H | H]; [discriminate |].
    rewrite H. reflexivity.
  - reflexivity.
Qed.

Lemma UrlInput_submit_guard (net : fetch_outcome) (s : UrlInput.state) :
  present (UrlInput.modelPreview s) = false \/ UrlInput.garmentUrl s = "" ->
  exec (UrlInput.startPrediction net) s = (s, []).
Proof.
  intros H. unfold UrlInput.startPrediction. run_handler.
  destruct (present (UrlInput.modelPreview s)) eqn:Hp; cbn.
  - destruct H as [H | H]; [discriminate |].
    rewrite H. reflexivity.
  - reflexivity.
Qed.

(** C4, as stated, fails in the URL-input variant: submitting with nothing
    chosen returns at once, the state is exactly the initial one and the
    effect log is empty, so no notification of any severity is produced
    (that variant has no notification cell at all). *)
Lemma submit_without_inputs_is_silent_in_url_variant :
  exec (UrlInput.startPrediction (Samples.answer Samples.completedJob))
       UrlInput.initial
  = (UrlInput.initial, []).
Proof. reflexivity. Qed.

(** C4, amended: when the model image or the garment URL is missing, submit
    issues no request in any variant and leaves the controller where it was;
    the two variants with a notification state set a warning notification
    (and register its expiry), and change nothing else; the URL-input
    variant changes nothing at all. *)
Theorem submit_guard_keeps_idle
  (net : fetch_outcome) (s : AppState.state) (s1 : UrlInput.state)
  (H : present (AppState.modelPreview s) = false \/ AppState.garmentUrl s = "")
  (H1 : present (UrlInput.modelPreview s1) = false \/ UrlInput.garmentUrl s1 = "") :
  exec (InlineCamera.startPrediction net) s
  = (AppState.with_error (Some (missingInput s)) s, [SetTimeout 5000])
  /\ exec (ModalCamera.startPrediction net) s
     = (AppState.with_error (Some (missingInput s)) s, [SetTimeout 5000])
  /\ AppState.type (missingInput s) = AppState.SevWarning
  /\ exec (UrlInput.startPrediction net) s1 = (s1, []).
Proof.
  split; [| split; [| split]].
  - now apply InlineCamera_submit_guard.
  - now apply ModalCamera_submit_guard.
  - unfold missingInput. now destruct (present (AppState.modelPreview s)).
  - now apply UrlInput_submit_guard.
Qed.

Lemma submit_guard_keeps_idle_witness :
  exec (InlineCamera.startPrediction (Samples.answer Samples.completedJob))
       AppState.initial
  = (AppState.with_error (Some (missingInput AppState.initial)) AppState.initial,
     [SetTimeout 5000])
  /\ exec (ModalCamera.startPrediction (Samples.answer Samples.completedJob))
          AppState.initial
     = (AppState.with_error (Some (missingInput AppState.initial)) AppState.initial,
        [SetTimeout 5000])
  /\ AppState.type (missingInput AppState.initial) = AppState.SevWarning
  /\ exec (UrlInput.startPrediction (Samples.answer Samples.completedJob))
          UrlInput.initial
     = (UrlInput.initial, []).
Proof.
  apply (submit_guard_keeps_idle (Samples.answer Samples.completedJob)
           AppState.initial UrlInput.initial); left; reflexivity.
Defined.

(** ** Reset *)

(** C7, as stated, fails: after the reset the garment reference is still
    the one the page was loaded with, not the initial empty one. *)
Lemma reset_keeps_garment :
  AppState.garmentUrl (fst (exec AppState.handleTryAgain Samples.completed))
  = "https://shop.example/shirt.jpg"
  /\ AppState.garmentUrl AppState.initial = "".
Proof. split; reflexivity. Qed.

(** C7, amended: from every state, the reset puts the preview, the result,
    the job id, the status, the loading flag (and, where it exists, the
    notification and the URL box) back to their initial values, so the
    polling timer is not registered any more; it issues no effect and keeps
    the garment reference. *)
Theorem reset_restores_all_but_garment (s : AppState.state) (s1 : UrlInput.state) :
  exec AppState.handleTryAgain s
  = (AppState.with_garmentUrl (AppState.garmentUrl s) AppState.initial, [])
  /\ AppState.pollingActive (fst (exec AppState.handleTryAgain s)) = false
  /\ exec UrlInput.handleTryAgain s1
     = (UrlInput.mkState "" false None null null null (UrlInput.garmentUrl s1), [])
  /\ UrlInput.pollingActive (fst (exec UrlInput.handleTryAgain s1)) = false.
Proof.
  split; [reflexivity | split; [reflexivity | split; reflexivity]].
Qed.

(** ** A status check that cannot go on *)

Section FailedCheck.
Import AppState Outcome.

Variable s : state.
Hypothesis job : truthy (predictionId s) = true.

Ltac at_catch := cbn; eexists; repeat split.

Lemma InlineCamera_failed_check (net : fetch_outcome) :
  failed_check net ->
  idle_after_failure s (exec (InlineCamera.checkPredictionStatus net) s).
Proof.
  intros Hf. unfold InlineCamera.checkPredictionStatus. run_handler.
  rewrite job. cbn. unfold idle_after_failure.
  destruct Hf as [msg | r Hok | r msg Hb | r data Hb He | r data e Hb He Ht
                 | r data v Hb Hs Hv | r data out Hb Hs Ho Hbad].
  - at_catch.
  - rewrite Hok. at_catch.
  - destruct (ok r); cbn; rewrite ?Hb; at_catch.
  - destruct (ok r); cbn; rewrite ?Hb; cbn; [rewrite He |]; at_catch.
  - destruct (ok r); cbn; rewrite ?Hb; cbn; [rewrite He; cbn; rewrite Ht |];
      at_catch.
  - destruct (ok r); cbn; rewrite ?Hb; cbn; [| at_catch].
    destruct (getProp data "error") as [e |]; cbn; [| at_catch].
    destruct (truthy e); cbn; [at_catch |].
    rewrite Hs. cbn. rewrite Hv. at_catch.
  - destruct (ok r); cbn; rewrite ?Hb; cbn; [| at_catch].
    destruct (getProp data "error") as [e |]; cbn; [| at_catch].
    destruct (truthy e); cbn; [at_catch |].
    rewrite Hs. cbn. rewrite Ho. cbn.
    destruct out as [| [ | b | n | str | items | fields] ]; cbn in *;
      try discriminate; try (eexists; repeat split; fail).
    + destruct b; at_catch.
    + destruct (n =? 0)%Z; at_catch.
    + destruct (str =? ""); at_catch.
    + destruct items; cbn in *; [at_catch | discriminate].
Qed.

Lemma ModalCamera_failed_check (net : fetch_outcome) :
  failed_check net ->
  idle_after_failure s (exec (ModalCamera.checkPredictionStatus net) s).
Proof.
  intros Hf. unfold ModalCamera.checkPredictionStatus. run_handler.
  rewrite job. cbn. unfold idle_after_failure.
  destruct Hf as [msg | r Hok | r msg Hb | r data Hb He | r data e Hb He Ht
                 | r data v Hb Hs Hv | r data out Hb Hs Ho Hbad].
  - at_catch.
  - destruct (body r); cbn; [rewrite Hok |]; at_catch.
  - rewrite Hb. at_catch.
  - rewrite Hb. cbn. destruct (ok r); cbn; [rewrite He |]; at_catch.
  - rewrite Hb. cbn. destruct (ok r); cbn; [rewrite He; cbn; rewrite Ht |];
      at_catch.
  - rewrite Hb. cbn. destruct (ok r); cbn; [| at_catch].
    destruct (getProp data "error") as [e |]; cbn; [| at_catch].
    destruct (truthy e); cbn; [at_catch |].
    rewrite Hs. cbn. rewrite Hv. at_catch.
  - rewrite Hb. cbn. destruct (ok r); cbn; [| at_catch].
    destruct (getProp data "error") as [e |]; cbn; [| at_catch].
    destruct (truthy e); cbn; [at_catch |].
    rewrite Hs. cbn. rewrite Ho. cbn.
    destruct out as [| [ | b | n | str | items | fields] ]; cbn in *;
      try discriminate; try (eexists; repeat split; fail).
    + destruct b; at_catch.
    + destruct (n =? 0)%Z; at_catch.
    + destruct (str =? ""); at_catch.
    + destruct items; cbn in *; [at_catch | discriminate].
Qed.
End FailedCheck.

(** C2, as stated, fails in the URL-input variant: a rejected request
    leaves the state as it was, job id included, so the polling timer stays
    registered and the same job is asked for again at the next tick; nothing
    is shown to the user. *)
Lemma url_variant_keeps_polling_after_failure :
  exec (UrlInput.checkPredictionStatus (Rejected "Failed to fetch"))
       Samples.urlPolling
  = (Samples.urlPolling,
     [Fetch "GET" "https://api.fashn.ai/v1/status/job1" None])
  /\ UrlInput.pollingActive Samples.urlPolling = true.
Proof. split; reflexivity. Qed.

(** C2, amended: in the inline-camera and modal-camera variants, every
    status check of a running job that fails (rejected request, HTTP error
    status, body that is not JSON, body of an unusable shape) ends with an
    error notification shown, the loading flag off, the job id cleared and
    the polling timer no longer registered; preview, result and garment are
    untouched and no second request is made. *)
Theorem failed_status_check_returns_to_idle
  (s : AppState.state) (net : fetch_outcome)
  (job : truthy (AppState.predictionId s) = true)
  (failure : Outcome.failed_check net) :
  Outcome.idle_after_failure s (exec (InlineCamera.checkPredictionStatus net) s)
  /\ Outcome.idle_after_failure s (exec (ModalCamera.checkPredictionStatus net) s).
Proof.
  split.
  - now apply InlineCamera_failed_check.
  - now apply ModalCamera_failed_check.
Qed.

Lemma failed_status_check_returns_to_idle_witness :
  Outcome.idle_after_failure Samples.polling
    (exec (InlineCamera.checkPredictionStatus Samples.serverDown) Samples.polling)
  /\ Outcome.idle_after_failure Samples.polling
       (exec (ModalCamera.checkPredictionStatus Samples.serverDown) Samples.polling).
Proof.
  apply (failed_status_check_returns_to_idle Samples.polling Samples.serverDown).
  - reflexivity.
  - apply Outcome.http_error. reflexivity.
Defined.

(** ** What a status check does with the status it reads *)

Lemma getProp_defined (data : jsval) (k k' : string) (v : jsval) :
  getProp data k = Some v -> exists v', getProp data k' = Some v'.
Proof.
  unfold getProp.
  destruct data as [| [ | b | n | str | items | fields] ];
    intros H; try discriminate; eexists; reflexivity.
Qed.

Section ReadStatus.
Import AppState Outcome.

Variables (r : response) (data : json) (e v : jsval).
Hypothesis success : ok r = true.
Hypothesis parsed : body r = Parsed data.
Hypothesis error_field : getProp data "error" = Some e.
Hypothesis no_error : truthy e = false.
Hypothesis status_field : getProp data "status" = Some v.
Hypothesis has_status : truthy v = true.

Ltac read_status :=
  rewrite ?parsed; cbn; rewrite ?success; cbn; rewrite ?parsed; cbn;
  rewrite error_field; cbn; rewrite no_error; cbn;
  rewrite status_field; cbn; rewrite has_status; cbn.

Section Running.
Hypothesis not_completed : is_str v "completed" = false.
Hypothesis not_failed : is_str v "failed" = false.

Lemma InlineCamera_other_status (s : state) :
  truthy (predictionId s) = true ->
  exec (InlineCamera.checkPredictionStatus (Resolved r)) s
  = (with_predictionStatus v s,
     [Fetch "GET" (statusUrl (predictionId s)) None]).
Proof.
  intros job. unfold InlineCamera.checkPredictionStatus. run_handler.
  rewrite job. cbn. read_status.
  rewrite not_completed, not_failed. reflexivity.
Qed.

Lemma ModalCamera_other_status (s : state) :
  truthy (predictionId s) = true ->
  exec (ModalCamera.checkPredictionStatus (Resolved r)) s
  = (with_predictionStatus v s,
     [Fetch "GET" (statusUrl (predictionId s)) None]).
Proof.
  intros job. unfold ModalCamera.checkPredictionStatus. run_handler.
  rewrite job. cbn. read_status.
  rewrite not_completed, not_failed. reflexivity.
Qed.

Lemma UrlInput_other_status (s : UrlInput.state) :
  truthy (UrlInput.predictionId s) = true ->
  exec (UrlInput.checkPredictionStatus (Resolved r)) s
  = (UrlInput.mkState (UrlInput.modelUrl s) (UrlInput.isLoading s)
       (UrlInput.modelPreview s) (UrlInput.generatedResult s)
       (UrlInput.predictionId s) v (UrlInput.garmentUrl s),
     [Fetch "GET" (statusUrl (UrlInput.predictionId s)) None]).
Proof.
  intros job. unfold UrlInput.checkPredictionStatus. run_handler.
  rewrite job. cbn. rewrite parsed. cbn. rewrite status_field. cbn.
  destruct (getProp_defined data "status" "output" v status_field) as [o Ho].
  rewrite Ho. cbn. rewrite not_completed, not_failed. reflexivity.
Qed.

Lemma other_status_keeps_polling (s : state) :
  truthy (predictionId s) = true ->
  pollingActive (with_predictionStatus v s) = true.
Proof.
  intros job. unfold pollingActive. cbn.
  now rewrite job, not_completed, not_failed.
Qed.
End Running.

Section Completed.
Hypothesis completed : v = Str "completed".

(** A non-empty output array: the first element becomes the result. *)
Lemma InlineCamera_completed (s : state) (img : json) (more : list json) :
  truthy (predictionId s) = true ->
  getProp data "output" = Some (Val (JArr (img :: more))) ->
  exec (InlineCamera.checkPredictionStatus (Resolved r)) s
  = (resolved img s, [Fetch "GET" (statusUrl (predictionId s)) None]).
Proof.
  intros job Ho. unfold InlineCamera.checkPredictionStatus. run_handler.
  rewrite job. cbn. read_status. subst v. cbn. rewrite Ho. reflexivity.
Qed.

Lemma ModalCamera_completed (s : state) (img : json) (more : list json) :
  truthy (predictionId s) = true ->
  getProp data "output" = Some (Val (JArr (img :: more))) ->
  exec (ModalCamera.checkPredictionStatus (Resolved r)) s
  = (resolved img s, [Fetch "GET" (statusUrl (predictionId s)) None]).
Proof.
  intros job Ho. unfold ModalCamera.checkPredictionStatus. run_handler.
  rewrite job. cbn. read_status. subst v. cbn. rewrite Ho. reflexivity.
Qed.

(** An absent, non-array or empty output: the check is aborted with the
    message of the malformed answer and the result is left alone. *)
Lemma InlineCamera_completed_without_output (s : state) (out : jsval) :
  truthy (predictionId s) = true ->
  getProp data "output" = Some out ->
  truthy out && isArray out && negb (arrayLength out =? 0)%nat = false ->
  exec (InlineCamera.checkPredictionStatus (Resolved r)) s
  = (aborted "Invalid response: missing or empty output array"
             (with_predictionStatus (Str "completed") s),
     [Fetch "GET" (statusUrl (predictionId s)) None; SetTimeout 5000]).
Proof.
  intros job Ho Hbad. unfold InlineCamera.checkPredictionStatus. run_handler.
  rewrite job. cbn. read_status. subst v. cbn. rewrite Ho. cbn.
  destruct out as [| [ | b | n | str | items | fields] ]; cbn in *;
    try discriminate; try reflexivity.
  - now destruct b.
  - now destruct (n =? 0)%Z.
  - now destruct (str =? "").
  - destruct items; [reflexivity | discriminate].
Qed.

Lemma ModalCamera_completed_without_output (s : state) (out : jsval) :
  truthy (predictionId s) = true ->
  getProp data "output" = Some out ->
  truthy out && isArray out && negb (arrayLength out =? 0)%nat = false ->
  exec (ModalCamera.checkPredictionStatus (Resolved r)) s
  = (aborted "Invalid response: missing or empty output array"
             (with_predictionStatus (Str "completed") s),
     [Fetch "GET" (statusUrl (predictionId s)) None; SetTimeout 5000]).
Proof.
  intros job Ho Hbad. unfold ModalCamera.checkPredictionStatus. run_handler.
  rewrite job. cbn. read_status. subst v. cbn. rewrite Ho. cbn.
  destruct out as [| [ | b | n | str | items | fields] ]; cbn in *;
    try discriminate; try reflexivity.
  - now destruct b.
  - now destruct (n =? 0)%Z.
  - now destruct (str =? "").
  - destruct items; [reflexivity | discriminate].
Qed.
End Completed.
End ReadStatus.

(** C3, as stated, fails: the status [queued] is outside the vocabulary, yet
    the check stores it as the current status, raises no notification, keeps
    the job id, and the polling timer stays registered. *)
Lemma unknown_status_passes_through :
  exec (InlineCamera.checkPredictionStatus (Samples.answer Samples.queuedJob))
       Samples.polling
  = (AppState.with_predictionStatus (Str "queued") Samples.polling,
     [Fetch "GET" "https://api.fashn.ai/v1/status/job1" None])
  /\ AppState.error
       (AppState.with_predictionStatus (Str "queued") Samples.polling) = None
  /\ AppState.pollingActive
       (AppState.with_predictionStatus (Str "queued") Samples.polling) = true.
Proof. repeat split. Qed.

(** C3, amended: a successful answer without an [error] field whose
    [status] is present (truthy) and is neither [completed] nor [failed],
    whether inside the vocabulary or not, is stored unchanged as the current
    status in every variant; nothing else changes, no notification is
    raised, and polling of the job continues. *)
Theorem other_status_is_stored_and_polled
  (s : AppState.state) (s1 : UrlInput.state)
  (r : response) (data : json) (e v : jsval)
  (job : truthy (AppState.predictionId s) = true)
  (job1 : truthy (UrlInput.predictionId s1) = true)
  (success : ok r = true)
  (parsed : body r = Parsed data)
  (error_field : getProp data "error" = Some e)
  (no_error : truthy e = false)
  (status_field : getProp data "status" = Some v)
  (has_status : truthy v = true)
  (not_completed : is_str v "completed" = false)
  (not_failed : is_str v "failed" = false) :
  exec (InlineCamera.checkPredictionStatus (Resolved r)) s
  = (AppState.with_predictionStatus v s,
     [Fetch "GET" (statusUrl (AppState.predictionId s)) None])
  /\ exec (ModalCamera.checkPredictionStatus (Resolved r)) s
     = (AppState.with_predictionStatus v s,
        [Fetch "GET" (statusUrl (AppState.predictionId s)) None])
  /\ AppState.pollingActive (AppState.with_predictionStatus v s) = true
  /\ exec (UrlInput.checkPredictionStatus (Resolved r)) s1
     = (UrlInput.mkState (UrlInput.modelUrl s1) (UrlInput.isLoading s1)
          (UrlInput.modelPreview s1) (UrlInput.generatedResult s1)
          (UrlInput.predictionId s1) v (UrlInput.garmentUrl s1),
        [Fetch "GET" (statusUrl (UrlInput.predictionId s1)) None]).
Proof.
  split; [| split; [| split]].
  - eapply InlineCamera_other_status; eassumption.
  - eapply ModalCamera_other_status; eassumption.
  - eapply other_status_keeps_polling; eassumption.
  - eapply UrlInput_other_status; eassumption.
Qed.

Lemma other_status_is_stored_and_polled_witness :
  exec (InlineCamera.checkPredictionStatus (Samples.answer Samples.queuedJob))
       Samples.polling
  = (AppState.with_predictionStatus (Str "queued") Samples.polling,
     [Fetch "GET" (statusUrl (AppState.predictionId Samples.polling)) None])
  /\ exec (ModalCamera.checkPredictionStatus (Samples.answer Samples.queuedJob))
          Samples.polling
     = (AppState.with_predictionStatus (Str "queued") Samples.polling,
        [Fetch "GET" (statusUrl (AppState.predictionId Samples.polling)) None])
  /\ AppState.pollingActive
       (AppState.with_predictionStatus (Str "queued") Samples.polling) = true
  /\ exec (UrlInput.checkPredictionStatus (Samples.answer Samples.queuedJob))
          Samples.urlPolling
     = (UrlInput.mkState (UrlInput.modelUrl Samples.urlPolling)
          (UrlInput.isLoading Samples.urlPolling)
          (UrlInput.modelPreview Samples.urlPolling)
          (UrlInput.generatedResult Samples.urlPolling)
          (UrlInput.predictionId Samples.urlPolling) (Str "queued")
          (UrlInput.garmentUrl Samples.urlPolling),
        [Fetch "GET" (statusUrl (UrlInput.predictionId Samples.urlPolling)) None]).
Proof.
  apply (other_status_is_stored_and_polled Samples.polling Samples.urlPolling
           (mkResponse 200 "OK" (Parsed Samples.queuedJob)) Samples.queuedJob
           Undefined (Str "queued")); reflexivity.
Defined.

(** ** Completion without a usable result *)

(** C1 at the failing input, in the URL-input variant: the answer
    [{status: 'completed', output: []}] passes the test [data.output] (an
    empty array is truthy), so the check takes the completed branch: it
    stores [undefined] as the result, stops loading and clears the job id,
    and raises nothing.  The sibling variants reject the same answer
    ([InlineCamera_completed_without_output],
    [ModalCamera_completed_without_output]). *)
Theorem url_variant_completes_with_undefined_result :
  exec (UrlInput.checkPredictionStatus (Samples.answer Samples.emptyOutput))
       Samples.urlPolling
  = (UrlInput.mkState "" false (Some "data:image/jpeg;base64,AAAA") Undefined
                      null (Str "completed") "https://shop.example/shirt.jpg",
     [Fetch "GET" "https://api.fashn.ai/v1/status/job1" None]).
Proof. reflexivity. Qed.

(** The same answer in the two sibling variants. *)
Lemma siblings_reject_empty_output :
  exec (InlineCamera.checkPredictionStatus (Samples.answer Samples.emptyOutput))
       Samples.polling
  = (Outcome.aborted "Invalid response: missing or empty output array"
       (AppState.with_predictionStatus (Str "completed") Samples.polling),
     [Fetch "GET" "https://api.fashn.ai/v1/status/job1" None; SetTimeout 5000])
  /\ exec (ModalCamera.checkPredictionStatus (Samples.answer Samples.emptyOutput))
          Samples.polling
     = (Outcome.aborted "Invalid response: missing or empty output array"
          (AppState.with_predictionStatus (Str "completed") Samples.polling),
        [Fetch "GET" "https://api.fashn.ai/v1/status/job1" None; SetTimeout 5000]).
Proof. split; reflexivity. Qed.

(** ** Submission *)

Section Submit.
Import AppState Outcome.

Variable s : state.
Hypothesis model : present (modelPreview s) = true.
Hypothesis garment : (garmentUrl s =? "") = false.

Ltac past_guards := run_handler; rewrite model, garment; cbn.

(** Success: HTTP success, a JSON body, no [error], an [id]. *)
Lemma InlineCamera_submit_success (r : response) (data : json) (e id : jsval) :
  ok r = true -> body r = Parsed data ->
  getProp data "error" = Some e -> truthy e = false ->
  getProp data "id" = Some id -> truthy id = true ->
  exec (InlineCamera.startPrediction (Resolved r)) s = (submitted id s, [submitRequest s]).
Proof.
  intros Hok Hb He Hne Hid Hti. unfold InlineCamera.startPrediction. past_guards.
  rewrite Hok. cbn. rewrite Hb. cbn. rewrite He. cbn. rewrite Hne. cbn.
  rewrite Hid. cbn. rewrite Hti. reflexivity.
Qed.

Lemma ModalCamera_submit_success (r : response) (data : json) (e id : jsval) :
  ok r = true -> body r = Parsed data ->
  getProp data "error" = Some e -> truthy e = false ->
  getProp data "id" = Some id -> truthy id = true ->
  exec (ModalCamera.startPrediction (Resolved r)) s = (submitted id s, [submitRequest s]).
Proof.
  intros Hok Hb He Hne Hid Hti. unfold ModalCamera.startPrediction. past_guards.
  rewrite Hb. cbn. rewrite Hok. cbn. rewrite He. cbn. rewrite Hne. cbn.
  rewrite Hid. cbn. rewrite Hti. reflexivity.
Qed.

(** HTTP failure in the inline-camera variant: the error text of the
    body if there is one, the status line otherwise, also when the body is
    not JSON. *)
Lemma InlineCamera_submit_http_error (r : response) :
  ok r = false ->
  exec (InlineCamera.startPrediction (Resolved r)) s
  = (rejected (toString (or_else (optProp (json_or_null r) "error")
                                 (Str (httpStatusLine "API request" r)))) s,
     [submitRequest s; SetTimeout 5000]).
Proof.
  intros Hok. unfold InlineCamera.startPrediction. past_guards.
  rewrite Hok. reflexivity.
Qed.

(** An [error] field on an HTTP success. *)
Lemma InlineCamera_submit_api_error (r : response) (data : json) (e : jsval) :
  ok r = true -> body r = Parsed data ->
  getProp data "error" = Some e -> truthy e = true ->
  exec (InlineCamera.startPrediction (Resolved r)) s
  = (rejected ("API Error: " ++ toString e) s, [submitRequest s; SetTimeout 5000]).
Proof.
  intros Hok Hb He Hte. unfold InlineCamera.startPrediction. past_guards.
  rewrite Hok. cbn. rewrite Hb. cbn. rewrite He. cbn. rewrite Hte. reflexivity.
Qed.

(** A missing [id]. *)
Lemma InlineCamera_submit_missing_id (r : response) (data : json) (e id : jsval) :
  ok r = true -> body r = Parsed data ->
  getProp data "error" = Some e -> truthy e = false ->
  getProp data "id" = Some id -> truthy id = false ->
  exec (InlineCamera.startPrediction (Resolved r)) s
  = (rejected "Invalid response: missing prediction ID" s,
     [submitRequest s; SetTimeout 5000]).
Proof.
  intros Hok Hb He Hne Hid Hti. unfold InlineCamera.startPrediction. past_guards.
  rewrite Hok. cbn. rewrite Hb. cbn. rewrite He. cbn. rewrite Hne. cbn.
  rewrite Hid. cbn. rewrite Hti. reflexivity.
Qed.

Lemma ModalCamera_submit_missing_id (r : response) (data : json) (e id : jsval) :
  ok r = true -> body r = Parsed data ->
  getProp data "error" = Some e -> truthy e = false ->
  getProp data "id" = Some id -> truthy id = false ->
  exec (ModalCamera.startPrediction (Resolved r)) s
  = (rejected "Invalid response: missing prediction ID" s,
     [submitRequest s; SetTimeout 5000]).
Proof.
  intros Hok Hb He Hne Hid Hti. unfold ModalCamera.startPrediction. past_guards.
  rewrite Hb. cbn. rewrite Hok. cbn. rewrite He. cbn. rewrite Hne. cbn.
  rewrite Hid. cbn. rewrite Hti. reflexivity.
Qed.

(** In the modal-camera variant the body is parsed before the HTTP status
    is looked at: a body that is not JSON decides the message. *)
Lemma ModalCamera_submit_unparseable (r : response) (msg : string) :
  body r = SyntaxError msg ->
  exec (ModalCamera.startPrediction (Resolved r)) s
  = (rejected msg s, [submitRequest s; SetTimeout 5000]).
Proof.
  intros Hb. unfold ModalCamera.startPrediction. past_guards.
  rewrite Hb. reflexivity.
Qed.

(** Whatever the answer, a submission of these two variants either goes
    through with a truthy id or stores no id at all and stops loading
    with an error notification. *)
Lemma InlineCamera_submit_outcome (net : fetch_outcome) :
  (exists id, truthy id = true
              /\ exec (InlineCamera.startPrediction net) s = (submitted id s, [submitRequest s]))
  \/ (exists msg,
         exec (InlineCamera.startPrediction net) s
         = (rejected msg s, [submitRequest s; SetTimeout 5000])).
Proof.
  unfold InlineCamera.startPrediction. past_guards.
  destruct net as [msg | r]; cbn; [right; eexists; reflexivity |].
  destruct (ok r); cbn; [| right; eexists; reflexivity].
  destruct (body r) as [data | msg]; cbn; [| right; eexists; reflexivity].
  destruct (getProp data "error") as [e |]; cbn; [| right; eexists; reflexivity].
  destruct (truthy e); cbn; [right; eexists; reflexivity |].
  destruct (getProp data "id") as [id |]; cbn; [| right; eexists; reflexivity].
  destruct (truthy id) eqn:Hid; cbn; [| right; eexists; reflexivity].
  left. exists id. split; [assumption | reflexivity].
Qed.

Lemma ModalCamera_submit_outcome (net : fetch_outcome) :
  (exists id, truthy id = true
              /\ exec (ModalCamera.startPrediction net) s = (submitted id s, [submitRequest s]))
  \/ (exists msg,
         exec (ModalCamera.startPrediction net) s
         = (rejected msg s, [submitRequest s; SetTimeout 5000])).
Proof.
  unfold ModalCamera.startPrediction. past_guards.
  destruct net as [msg | r]; cbn; [right; eexists; reflexivity |].
  destruct (body r) as [data | msg]; cbn; [| right; eexists; reflexivity].
  destruct (ok r); cbn; [| right; eexists; reflexivity].
  destruct (getProp data "error") as [e |]; cbn; [| right; eexists; reflexivity].
  destruct (truthy e); cbn; [right; eexists; reflexivity |].
  destruct (getProp data "id") as [id |]; cbn; [| right; eexists; reflexivity].
  destruct (truthy id) eqn:Hid; cbn; [| right; eexists; reflexivity].
  left. exists id. split; [assumption | reflexivity].
Qed.
End Submit.

(** C5 at two failing inputs.  In the URL-input variant the answer [{}] of
    an HTTP success has no [id], yet the submission goes through: [undefined]
    is stored as the job id with status [starting], the loading flag stays
    on, no error is raised and no polling timer is registered.  In the
    modal-camera variant an HTTP 500 whose body is not JSON is reported with
    the parser's message, where the inline-camera variant reports the HTTP
    status line. *)
Theorem submission_checks_missed :
  exec (UrlInput.startPrediction (Samples.answer Samples.noId)) Samples.urlReady
  = (UrlInput.mkState "" true (Some "data:image/jpeg;base64,AAAA") null
                      Undefined (Str "starting") "https://shop.example/shirt.jpg",
     [Fetch "POST" "https://api.fashn.ai/v1/run"
            (Some (runPayload "data:image/jpeg;base64,AAAA"
                              "https://shop.example/shirt.jpg"))])
  /\ UrlInput.pollingActive
       (fst (exec (UrlInput.startPrediction (Samples.answer Samples.noId))
                  Samples.urlReady)) = false
  /\ AppState.error
       (fst (exec (ModalCamera.startPrediction Samples.serverDown) Samples.ready))
     = Some (AppState.mkError "Unexpected token < in JSON at position 0"
                              AppState.SevError)
  /\ AppState.error
       (fst (exec (InlineCamera.startPrediction Samples.serverDown) Samples.ready))
     = Some (AppState.mkError
               "API request failed with status 500: Internal Server Error"
               AppState.SevError).
Proof. repeat split. Qed.

(** ** Notifications and their expiry *)

Section Expiry.
Import AppState Timeline.

Lemma notify_shows (msg : string) (ty : severity) (w : world) :
  error (ui (notify msg ty w)) = Some (mkError msg ty).
Proof. reflexivity. Qed.

Lemma notify_schedules (msg : string) (ty : severity) (w : world) :
  expiries (notify msg ty w) = (expiries w ++ [clock w + 5000])%list.
Proof. reflexivity. Qed.

Lemma notify_clock (msg : string) (ty : severity) (w : world) :
  clock (notify msg ty w) = clock w.
Proof. reflexivity. Qed.

(** What is on screen [dt] milliseconds after a notification was shown,
    when nothing else happens in between. *)
Lemma notify_then_elapse (msg : string) (ty : severity) (w : world) (dt : nat) :
  error (ui (elapse dt (notify msg ty w)))
  = if existsb (due (clock w + dt)) (expiries w) || (5000 <=? dt)%nat
    then None
    else Some (mkError msg ty).
Proof.
  unfold elapse. rewrite notify_schedules, notify_clock.
  rewrite existsb_app. cbn [existsb]. rewrite orb_false_r.
  replace (due (clock w + dt) (clock w + 5000)) with (5000 <=? dt)%nat.
  - destruct (existsb (due (clock w + dt)) (expiries w) || (5000 <=? dt)%nat);
      reflexivity.
  - unfold due.
    destruct (Nat.leb_spec 5000 dt), (Nat.leb_spec (clock w + 5000) (clock w + dt));
      try reflexivity; lia.
Qed.

Lemma expired_after_five_seconds (msg : string) (ty : severity) (w : world)
      (extra : nat) :
  error (ui (elapse (5000 + extra) (notify msg ty w))) = None.
Proof.
  rewrite notify_then_elapse.
  replace (5000 <=? 5000 + extra)%nat with true.
  - now rewrite orb_true_r.
  - symmetry. apply Nat.leb_le. lia.
Qed.

Lemma first_notification_lasts (msg : string) (ty : severity) (s : state)
      (now dt : nat) :
  error (ui (elapse dt (notify msg ty (mkWorld s now []))))
  = if (5000 <=? dt)%nat then None else Some (mkError msg ty).
Proof. rewrite notify_then_elapse. reflexivity. Qed.
End Expiry.

(** C6, as stated, fails: a warning is shown at time 0 and an error at time
    3000; the error is on screen at once, but at time 5000, two seconds
    later, the expiry registered by the warning clears it, although its own
    expiry is only due at 8000. *)
Lemma second_notification_cut_short :
  AppState.error
    (Timeline.ui
       (Timeline.notify "B" AppState.SevError
          (Timeline.elapse 3000
             (Timeline.notify "A" AppState.SevWarning Timeline.start))))
  = Some (AppState.mkError "B" AppState.SevError)
  /\ AppState.error
       (Timeline.ui
          (Timeline.elapse 2000
             (Timeline.notify "B" AppState.SevError
                (Timeline.elapse 3000
                   (Timeline.notify "A" AppState.SevWarning Timeline.start)))))
     = None
  /\ Timeline.expiries
       (Timeline.elapse 2000
          (Timeline.notify "B" AppState.SevError
             (Timeline.elapse 3000
                (Timeline.notify "A" AppState.SevWarning Timeline.start))))
     = [8000].
Proof. repeat apply conj; reflexivity. Qed.

(** C6, amended: there is one notification cell, so at most one
    notification is live and a new one overwrites the old one; showing a
    notification registers an expiry 5 seconds later and cancels none of the
    expiries registered before.  With nothing else happening, the
    notification is still shown after [dt] milliseconds exactly when
    [dt < 5000] and no earlier expiry has fallen due by then: it is gone after
    5 seconds at the latest, and it lasts the full 5 seconds when no expiry
    was pending. *)
Theorem notification_expiry
  (msg : string) (ty : AppState.severity) (w : Timeline.world)
  (s : AppState.state) (now dt extra : nat) :
  AppState.error (Timeline.ui (Timeline.notify msg ty w))
  = Some (AppState.mkError msg ty)
  /\ Timeline.expiries (Timeline.notify msg ty w)
     = (Timeline.expiries w ++ [Timeline.clock w + 5000])%list
  /\ AppState.error (Timeline.ui (Timeline.elapse dt (Timeline.notify msg ty w)))
     = (if existsb (Timeline.due (Timeline.clock w + dt)) (Timeline.expiries w)
           || (5000 <=? dt)%nat
        then None
        else Some (AppState.mkError msg ty))
  /\ AppState.error
       (Timeline.ui (Timeline.elapse (5000 + extra) (Timeline.notify msg ty w)))
     = None
  /\ AppState.error
       (Timeline.ui
          (Timeline.elapse dt (Timeline.notify msg ty (Timeline.mkWorld s now []))))
     = (if (5000 <=? dt)%nat then None else Some (AppState.mkError msg ty)).
Proof.
  repeat apply conj.
  - apply notify_shows.
  - apply notify_schedules.
  - apply notify_then_elapse.
  - apply expired_after_five_seconds.
  - apply first_notification_lasts.
Qed.

(** ** The picture taken by the camera modal *)

Section Mirror.
Import CameraModal.

Lemma map_nth_seq {A B} (g : A -> B) (l : list A) (dflt : A) :
  map (fun i => g (nth i l dflt)) (seq 0 (List.length l)) = map g l.
Proof.
  induction l as [| x l IH]; [reflexivity |].
  cbn [List.length seq map nth]. f_equal.
  rewrite <- seq_shift, map_map. exact IH.
Qed.

Lemma flipped_row (row : list pixel) :
  map (fun cx => pick 0 row (source (-1) (Z.of_nat (List.length row)) (Z.of_nat cx)))
      (seq 0 (List.length row))
  = rev row.
Proof.
  apply nth_ext with (d := 0) (d' := 0).
  - now rewrite length_map, length_seq, length_rev.
  - intros n Hn. rewrite length_map, length_seq in Hn.
    rewrite (nth_indep _ 0 (pick 0 row (source (-1) (Z.of_nat (List.length row))
                                           (Z.of_nat 0))))
      by now rewrite length_map, length_seq.
    rewrite (map_nth (fun cx => pick 0 row (source (-1) (Z.of_nat (List.length row))
                                                   (Z.of_nat cx)))).
    rewrite seq_nth by assumption. cbn [Nat.add].
    rewrite rev_nth by assumption.
    unfold pick, source. cbn [Z.ltb Z.compare].
    destruct (Z.ltb_spec (Z.of_nat (List.length row) - 1 - Z.of_nat n) 0) as [Hneg | _].
    + exfalso. apply Nat2Z.inj_lt in Hn. lia.
    + replace (Z.to_nat (Z.of_nat (List.length row) - 1 - Z.of_nat n))
        with (List.length row - S n)%nat; [reflexivity |].
      apply Nat2Z.inj_lt in Hn. lia.
Qed.

Lemma drawImage_flipped (video : bitmap) :
  rectangular video ->
  drawImage (scale (-1) 1 (translate (Z.of_nat (videoWidth video)) 0 identity))
            video (videoWidth video) (videoHeight video)
  = mirrored video.
Proof.
  intros Hrect. unfold drawImage, mirrored, videoHeight.
  cbn [a d e f scale translate identity].
  rewrite !Z.mul_1_l, !Z.add_0_l.
  set (flip := fun row : list pixel =>
                 map (fun cx : nat =>
                        pick 0 row (source (-1) (Z.of_nat (videoWidth video))
                                           (Z.of_nat cx)))
                     (seq 0 (videoWidth video))).
  transitivity (map (fun cy => flip (nth cy video [])) (seq 0 (List.length video))).
  - apply map_ext. intros cy. unfold flip.
    replace (pick [] video (source 1 0 (Z.of_nat cy)))
      with (nth cy video []); [reflexivity |].
    unfold pick, source. cbn.
    destruct (Z.ltb_spec (Z.of_nat cy - 0) 0) as [Hneg | _]; [lia |].
    now rewrite Z.sub_0_r, Nat2Z.id.
  - rewrite (map_nth_seq flip video []).
    apply map_ext_in. intros row Hin. unfold flip.
    unfold rectangular in Hrect. rewrite Forall_forall in Hrect.
    rewrite <- (Hrect row Hin). apply flipped_row.
Qed.

(** Whatever camera is in use, the picture handed to [onCapture] is the
    frame flipped left to right, and the stream of the modal is stopped. *)
Lemma takePhoto_mirrors (m : modal) (video : bitmap) :
  mounted m = true ->
  rectangular video ->
  snd (takePhoto video true m) = Some (mirrored video).
Proof.
  intros Hm Hrect. unfold takePhoto. rewrite Hm. cbn [negb snd].
  now rewrite drawImage_flipped.
Qed.
End Mirror.

(** C8 at the failing input: with the back camera selected, the preview is
    not flipped, yet the picture taken from the frame [[1;2;3];[4;5;6]] is the
    flipped one; [takePhoto] never looks at [facingMode]
    ([takePhoto_mirrors]). *)
Theorem back_camera_photo_is_mirrored :
  CameraModal.facingMode Samples.backCamera = CameraModal.environment
  /\ CameraModal.previewFlipped (CameraModal.facingMode Samples.backCamera) = false
  /\ snd (CameraModal.takePhoto Samples.frame true Samples.backCamera)
     = Some [[3; 2; 1]; [6; 5; 4]].
Proof. repeat apply conj; reflexivity. Qed.

(** ** Releasing the camera *)

(** Without the input ref the inline capture does nothing. *)
Lemma InlineCamera_capture_guard (cam : InlineCamera.camera) (s : AppState.state) :
  InlineCamera.inputRef cam = false ->
  exec (InlineCamera.handleCameraUpload cam) s = (s, []).
Proof.
  intros Href. unfold InlineCamera.handleCameraUpload. run_handler.
  now rewrite Href.
Qed.

(** The inline capture stops the stream when everything goes well. *)
Lemma InlineCamera_capture_releases (cam : InlineCamera.camera) (s : AppState.state) :
  InlineCamera.inputRef cam = true ->
  InlineCamera.supported cam = true ->
  InlineCamera.permission cam = Ok tt ->
  InlineCamera.playback cam = Ok tt ->
  InlineCamera.context2d cam = true ->
  cameraLive (snd (exec (InlineCamera.handleCameraUpload cam) s)) = false.
Proof.
  intros Href Hsup Hperm Hplay Hctx. unfold InlineCamera.handleCameraUpload.
  run_handler. rewrite Href, Hsup. cbn. rewrite Hperm. cbn. rewrite Hplay. cbn.
  rewrite Hctx. cbn. now destruct (InlineCamera.dataUrl cam).
Qed.

(** It leaves the stream running when a step between the acquisition and
    the [stop] throws. *)
Lemma InlineCamera_capture_leaks (cam : InlineCamera.camera) (s : AppState.state) :
  InlineCamera.inputRef cam = true ->
  InlineCamera.supported cam = true ->
  InlineCamera.permission cam = Ok tt ->
  (exists msg, InlineCamera.playback cam = Throw msg)
  \/ (InlineCamera.playback cam = Ok tt /\ InlineCamera.context2d cam = false) ->
  cameraLive (snd (exec (InlineCamera.handleCameraUpload cam) s)) = true.
Proof.
  intros Href Hsup Hperm Hfail. unfold InlineCamera.handleCameraUpload.
  run_handler. rewrite Href, Hsup. cbn. rewrite Hperm. cbn.
  destruct Hfail as [[msg Hplay] | [Hplay Hctx]]; rewrite Hplay; cbn.
  - reflexivity.
  - now rewrite Hctx.
Qed.

(** In the modal, a shutter press that gets no 2D context keeps the modal
    and its stream; closing the modal stops the stream it holds. *)
Lemma CameraModal_no_context_then_close :
  CameraModal.running
    (CameraModal.run [CameraModal.Granted;
                      CameraModal.Shutter Samples.frame false])
  = [0]
  /\ CameraModal.running
       (CameraModal.run [CameraModal.Granted;
                         CameraModal.Shutter Samples.frame false;
                         CameraModal.Close])
     = [].
Proof. split; reflexivity. Qed.

(** C9 at three failing inputs.  Inline capture: the camera is granted, the
    video plays, the canvas gives no 2D context; the handler ends in its
    [catch] with the stream still running.  Modal: the modal is closed while
    [getUserMedia] is still pending and the stream is granted afterwards; or
    the camera is toggled before the first stream arrives, both streams
    arrive and the modal is closed; in both runs the component is gone, no
    request is outstanding, and stream 0 is still running. *)
Theorem camera_left_running :
  cameraLive (snd (exec (InlineCamera.handleCameraUpload Samples.noContext)
                        AppState.initial)) = true
  /\ CameraModal.finished
       (CameraModal.run [CameraModal.Close; CameraModal.Granted]) = true
  /\ CameraModal.running
       (CameraModal.run [CameraModal.Close; CameraModal.Granted]) = [0]
  /\ CameraModal.finished
       (CameraModal.run [CameraModal.Toggle; CameraModal.Granted;
                         CameraModal.Granted; CameraModal.Close]) = true
  /\ CameraModal.running
       (CameraModal.run [CameraModal.Toggle; CameraModal.Granted;
                         CameraModal.Granted; CameraModal.Close]) = [0].
Proof. repeat apply conj; reflexivity. Qed.

(* ================================================================== *)
(** * Further properties of the handlers *)

(** ** Every way a status check can end *)

Lemma is_str_eq (v : jsval) (lit : string) : is_str v lit = true -> v = Str lit.
Proof.
  destruct v as [| [ | b | n | str | items | fields] ]; cbn; try discriminate.
  intros H. apply String.eqb_eq in H. now subst.
Qed.

Section CheckCases.
Import AppState Outcome Cases.

Variable s : state.
Hypothesis job : truthy (predictionId s) = true.

(** The part of the two [try] bodies that follows the reading of a truthy
    status [v] from the object [data]. *)
Lemma after_status (data : jsval) (v : jsval) (log : list effect) :
  log = [Fetch "GET" (statusUrl (predictionId s)) None] ->
  truthy v = true ->
  check_case s
    (fst
       (try_catch
          (setPredictionStatus v ;;
           if is_str v "completed" then
             output <- prop data "output" ;;
             when (negb (truthy output) || negb (isArray output)
                   || (arrayLength output =? 0)%nat)
               (throw "Invalid response: missing or empty output array") ;;
             img <- first output ;;
             setGeneratedResult img ;;
             setIsLoading false ;;
             setPredictionId null ;;
             setError None
           else if is_str v "failed" then
             err' <- prop data "error" ;;
             throw (toString (or_else err'
                      (Str "Prediction failed without specific error message")))
           else ret tt)
          (fun msg =>
             showError msg SevError ;;
             setIsLoading false ;;
             setPredictionId null)
          (s, log))).
Proof.
  intros -> Hv. run_handler.
  destruct (is_str v "completed") eqn:Hc; cbn.
  - apply is_str_eq in Hc. subst v.
    destruct (getProp data "output") as [out |]; cbn.
    + destruct out as [| [ | b | n | str | items | fields] ]; cbn;
        try (apply (check_aborted_late s _ (Str "completed")); auto; fail).
      * destruct b; cbn;
          apply (check_aborted_late s _ (Str "completed")); auto.
      * destruct (n =? 0)%Z; cbn;
          apply (check_aborted_late s _ (Str "completed")); auto.
      * destruct (str =? ""); cbn;
          apply (check_aborted_late s _ (Str "completed")); auto.
      * destruct items as [| img more]; cbn.
        -- apply (check_aborted_late s _ (Str "completed")); auto.
        -- now apply (check_resolved s img).
    + apply (check_aborted_late s _ (Str "completed")); auto.
  - destruct (is_str v "failed") eqn:Hf; cbn.
    + apply is_str_eq in Hf. subst v.
      destruct (getProp data "error") as [e |]; cbn;
        apply (check_aborted_late s _ (Str "failed")); auto.
    + now apply check_running.
Qed.

Lemma InlineCamera_check_cases (net : fetch_outcome) :
  check_case s (exec (InlineCamera.checkPredictionStatus net) s).
Proof.
  unfold InlineCamera.checkPredictionStatus, exec.
  unfold bind at 1, get at 1. cbn [fst]. rewrite job. cbn [negb].
  destruct net as [msg | r].
  - run_handler. now apply check_aborted.
  - destruct (ok r) eqn:Hok.
    + destruct (body r) as [data | msg] eqn:Hb.
      * destruct (getProp data "error") as [e |] eqn:He.
        -- destruct (truthy e) eqn:Hte.
           ++ run_handler. rewrite Hok. cbn. rewrite Hb. cbn. rewrite He. cbn.
              rewrite Hte. cbn. now apply check_aborted.
           ++ destruct (getProp data "status") as [v |] eqn:Hs.
              ** destruct (truthy v) eqn:Hv.
                 --- pose proof (after_status data v _ eq_refl Hv) as H.
                     revert H. run_handler. rewrite Hok. cbn. rewrite Hb. cbn.
                     rewrite He. cbn. rewrite Hte. cbn. rewrite Hs. cbn.
                     rewrite Hv. cbn. exact (fun H => H).
                 --- run_handler. rewrite Hok. cbn. rewrite Hb. cbn. rewrite He.
                     cbn. rewrite Hte. cbn. rewrite Hs. cbn. rewrite Hv. cbn.
                     now apply check_aborted.
              ** run_handler. rewrite Hok. cbn. rewrite Hb. cbn. rewrite He. cbn.
                 rewrite Hte. cbn. rewrite Hs. cbn. now apply check_aborted.
        -- run_handler. rewrite Hok. cbn. rewrite Hb. cbn. rewrite He. cbn.
           now apply check_aborted.
      * run_handler. rewrite Hok. cbn. rewrite Hb. cbn. now apply check_aborted.
    + run_handler. rewrite Hok. cbn. now apply check_aborted.
Qed.
End CheckCases.

Section CheckCasesModal.
Import AppState Outcome Cases.

Variable s : state.
Hypothesis job : truthy (predictionId s) = true.

Lemma ModalCamera_check_cases (net : fetch_outcome) :
  check_case s (exec (ModalCamera.checkPredictionStatus net) s).
Proof.
  unfold ModalCamera.checkPredictionStatus, exec.
  unfold bind at 1, get at 1. cbn [fst]. rewrite job. cbn [negb].
  destruct net as [msg | r].
  - run_handler. now apply check_aborted.
  - destruct (body r) as [data | msg] eqn:Hb.
    + destruct (ok r) eqn:Hok.
      * destruct (getProp data "error") as [e |] eqn:He.
        -- destruct (truthy e) eqn:Hte.
           ++ run_handler. rewrite Hb. cbn. rewrite Hok. cbn. rewrite He. cbn.
              rewrite Hte. cbn. now apply check_aborted.
           ++ destruct (getProp data "status") as [v |] eqn:Hs.
              ** destruct (truthy v) eqn:Hv.
                 --- pose proof (after_status s job data v _ eq_refl Hv) as H.
                     revert H. run_handler. rewrite Hb. cbn. rewrite Hok. cbn.
                     rewrite He. cbn. rewrite Hte. cbn. rewrite Hs. cbn.
                     rewrite Hv. cbn. exact (fun H => H).
                 --- run_handler. rewrite Hb. cbn. rewrite Hok. cbn. rewrite He.
                     cbn. rewrite Hte. cbn. rewrite Hs. cbn. rewrite Hv. cbn.
                     now apply check_aborted.
              ** run_handler. rewrite Hb. cbn. rewrite Hok. cbn. rewrite He. cbn.
                 rewrite Hte. cbn. rewrite Hs. cbn. now apply check_aborted.
        -- run_handler. rewrite Hb. cbn. rewrite Hok. cbn. rewrite He. cbn.
           now apply check_aborted.
      * run_handler. rewrite Hb. cbn. rewrite Hok. cbn. now apply check_aborted.
    + run_handler. rewrite Hb. cbn. now apply check_aborted.
Qed.
End CheckCasesModal.

(** Whatever the remote service answers, a status check of either variant
    with notifications ends in one of five ways: nothing happens (no job),
    the status read is stored and polling goes on, the result is stored and
    the job closed, or the job is aborted with an error notification, before
    or after a terminal status was stored.  At most one request is made. *)
Lemma check_case_of_variant
  (v : Session.variant) (s : AppState.state) (net : fetch_outcome) :
  Cases.check_case s (exec (Session.checkPredictionStatusOf v net) s).
Proof.
  destruct (truthy (AppState.predictionId s)) eqn:job.
  - destruct v; cbn.
    + now apply InlineCamera_check_cases.
    + now apply ModalCamera_check_cases.
  - destruct v; cbn.
    + rewrite InlineCamera_check_guard by assumption. now apply Cases.check_skipped.
    + rewrite ModalCamera_check_guard by assumption. now apply Cases.check_skipped.
Qed.

(** ** Every way a submission can end *)

Lemma eqb_empty_false (u : string) : (u =? "") = false -> u <> "".
Proof. intros H. now apply String.eqb_neq. Qed.

(** Whatever the remote service answers, a submission of either variant
    with notifications ends in one of three ways: a warning and no request
    (an input is missing), a truthy job id stored with status [starting] and
    the loading flag on, or an error notification with the loading flag off
    and the job id untouched.  With both inputs present exactly one request
    is made. *)
Lemma submit_case_of_variant
  (v : Session.variant) (s : AppState.state) (net : fetch_outcome) :
  Cases.submit_case s (exec (Session.startPredictionOf v net) s).
Proof.
  destruct (present (AppState.modelPreview s)) eqn:Hm.
  - destruct (AppState.garmentUrl s =? "") eqn:Hg.
    + apply String.eqb_eq in Hg.
      destruct v; cbn.
      * rewrite InlineCamera_submit_guard by (now right).
        apply Cases.submit_warned. now right.
      * rewrite ModalCamera_submit_guard by (now right).
        apply Cases.submit_warned. now right.
    + pose proof (eqb_empty_false _ Hg) as Hne.
      destruct v; cbn.
      * destruct (InlineCamera_submit_outcome s Hm Hg net)
          as [[id [Hid ->]] | [msg ->]].
        -- now apply Cases.submit_sent.
        -- now apply Cases.submit_rejected.
      * destruct (ModalCamera_submit_outcome s Hm Hg net)
          as [[id [Hid ->]] | [msg ->]].
        -- now apply Cases.submit_sent.
        -- now apply Cases.submit_rejected.
  - destruct v; cbn.
    + rewrite InlineCamera_submit_guard by (now left).
      apply Cases.submit_warned. now left.
    + rewrite ModalCamera_submit_guard by (now left).
      apply Cases.submit_warned. now left.
Qed.

(** ** Every way an inline capture can end *)

(** The inline capture ends in one of six ways; it changes nothing but the
    preview and the notification, and the preview only when a picture was
    encoded, after the stream was stopped. *)
Lemma capture_case_of_camera (cam : InlineCamera.camera) (s : AppState.state) :
  Cases.capture_case s (exec (InlineCamera.handleCameraUpload cam) s).
Proof.
  unfold InlineCamera.handleCameraUpload. run_handler.
  destruct (InlineCamera.inputRef cam); cbn; [| apply Cases.capture_skipped].
  destruct (InlineCamera.supported cam); cbn; [| apply Cases.capture_unsupported].
  destruct (InlineCamera.permission cam) as [[] | msg]; cbn;
    [| apply Cases.capture_denied].
  destruct (InlineCamera.playback cam) as [[] | msg]; cbn;
    [| apply Cases.capture_leaked].
  destruct (InlineCamera.context2d cam); cbn; [| apply Cases.capture_leaked].
  destruct (InlineCamera.dataUrl cam) as [url | msg]; cbn.
  - apply Cases.capture_taken.
  - apply Cases.capture_unencoded.
Qed.

(** ** Sessions *)

Section SessionInvariants.
Import AppState Outcome Cases Timeline Session.

Ltac timers :=
  let d := fresh "d" in
  let Hin := fresh "Hin" in
  intros d Hin; cbn in Hin;
  repeat match goal with
         | H : _ \/ _ |- _ => destruct H
         | H : False |- _ => contradiction
         | H : SetTimeout _ = SetTimeout _ |- _ => injection H as <-
         | H : _ = SetTimeout _ |- _ => discriminate H
         end; reflexivity.

Ltac notice :=
  let Herr := fresh "Herr" in
  intros Herr; cbn in *;
  first [ now left
        | right; cbn; tauto
        | exfalso; now apply Herr ].

Ltac timed_case := split; [timers | notice].

Lemma handler_timed (v : variant) (ev : event) (s : state) :
  timed s (exec (handler v ev s) s).
Proof.
  destruct ev as [param wf | picked | cam | image | net | net | | p | dt];
    cbn [handler].
  - unfold loadGarment. run_handler.
    destruct (present param); [destruct wf |]; cbn; timed_case.
  - unfold FileUpload.handleFileUpload.
    destruct picked as [f |]; [| run_handler; timed_case].
    destruct (prefix "image/" (FileUpload.mime f)); cbn [negb];
      [| run_handler; timed_case].
    destruct (FileUpload.contents f); run_handler; timed_case.
  - destruct v; [| run_handler; timed_case].
    destruct (capture_case_of_camera cam s); timed_case.
  - destruct v; unfold ModalCamera.handleCameraCapture; run_handler; timed_case.
  - destruct (View.generateDisabled s); [run_handler; timed_case |].
    destruct (submit_case_of_variant v s net); timed_case.
  - destruct (pollingActive s); [| run_handler; timed_case].
    destruct (check_case_of_variant v s net); timed_case.
  - destruct (View.tryAgainShown s); unfold handleTryAgain; run_handler; timed_case.
  - destruct (View.rendered p s); run_handler; timed_case.
  - run_handler; timed_case.
Qed.

Lemma scheduled_app (now : nat) (l1 l2 : list effect) :
  scheduled now (l1 ++ l2)%list = (scheduled now l1 ++ scheduled now l2)%list.
Proof. unfold scheduled. now rewrite flat_map_app. Qed.

Lemma in_scheduled (now : nat) (log : list effect) (t : nat) :
  In t (scheduled now log) -> exists d, In (SetTimeout d) log /\ t = now + d.
Proof.
  unfold scheduled. rewrite in_flat_map. intros [e [Hin Ht]].
  destruct e; cbn in Ht; try contradiction.
  destruct Ht as [<- | []]. eauto.
Qed.

Lemma scheduled_in (now : nat) (log : list effect) (d : nat) :
  In (SetTimeout d) log -> In (now + d) (scheduled now log).
Proof.
  unfold scheduled. rewrite in_flat_map. intros Hin.
  exists (SetTimeout d). split; [assumption | now left].
Qed.

Lemma perform_expiring (h : M state unit) (w : world) :
  timed (ui w) (exec h (ui w)) -> expiring w -> expiring (perform h w).
Proof.
  intros [Hdelay Hshown] [Hahead Hpending]. unfold expiring, perform. cbn.
  split.
  - apply Forall_app. split; [assumption |].
    apply Forall_forall. intros t Ht.
    apply in_scheduled in Ht as [d [Hin ->]].
    rewrite (Hdelay d Hin). lia.
  - intros Herr Hnil. apply app_eq_nil in Hnil as [Hold Hnew].
    destruct (Hshown Herr) as [Hsame | Htimer].
    + rewrite Hsame in Herr. now apply Hpending.
    + apply (scheduled_in (clock w)) in Htimer. rewrite Hnew in Htimer.
      contradiction.
Qed.

Lemma elapse_expiring (dt : nat) (w : world) : expiring w -> expiring (elapse dt w).
Proof.
  intros [Hahead Hpending]. unfold expiring, elapse. cbn. split.
  - apply Forall_forall. intros d Hd. apply filter_In in Hd as [Hin Hlate].
    rewrite Forall_forall in Hahead. specialize (Hahead d Hin).
    unfold due in Hlate. apply negb_true_iff, Nat.leb_gt in Hlate. lia.
  - destruct (existsb (due (clock w + dt)) (expiries w)) eqn:Hdue; cbn.
    + intros Herr. now contradiction Herr.
    + intros Herr Hnil. apply Hpending; [assumption |].
      destruct (expiries w) as [| d rest]; [reflexivity |].
      cbn in Hdue. apply orb_false_iff in Hdue as [Hd _].
      cbn in Hnil. rewrite Hd in Hnil. discriminate.
Qed.

Lemma step_expiring (v : variant) (w : world) (ev : event) :
  expiring w -> expiring (step v w ev).
Proof.
  intros Hw. destruct ev; cbn [step];
    try (apply perform_expiring; [apply handler_timed | assumption]).
  now apply elapse_expiring.
Qed.


Lemma fold_invariant (P : world -> Prop) (v : variant) :
  (forall w ev, P w -> P (step v w ev)) ->
  forall evs w, P w -> P (fold_left (step v) evs w).
Proof.
  intros Hstep evs. induction evs as [| ev evs IH]; intros w Hw; cbn.
  - exact Hw.
  - apply IH. now apply Hstep.
Qed.


Lemma run_expiring (v : variant) (evs : list event) : expiring (run v evs).
Proof.
  apply (fold_invariant expiring).
  - intros w ev. apply step_expiring.
  - split; [constructor | intros H; now contradiction H].
Qed.

Lemma quiet_five_seconds (w : world) :
  expiring w -> error (ui (elapse 5000 w)) = None.
Proof.
  intros [Hahead Hpending]. unfold elapse. cbn [ui].
  destruct (existsb (due (clock w + 5000)) (expiries w)) eqn:Hdue; [reflexivity |].
  destruct (error (ui w)) as [e |] eqn:Herr; [| reflexivity].
  exfalso.
  assert (Hne : expiries w <> []) by (apply Hpending; discriminate).
  destruct (expiries w) as [| d rest]; [now apply Hne |].
  apply Forall_inv in Hahead. cbn in Hdue.
  apply orb_false_iff in Hdue as [Hd _].
  unfold due in Hd. apply Nat.leb_gt in Hd. lia.
Qed.
End SessionInvariants.


(** X2: whatever the remote service answers, a submission of either variant
    with notifications ends in one of three ways: a warning and no request
    (an input is missing), a truthy job id stored with status [starting] and
    the loading flag on, or an error notification with the loading flag off
    and the job id untouched. *)
Theorem submit_cases
  (v : Session.variant) (s : AppState.state) (net : fetch_outcome) :
  Cases.submit_case s (exec (Session.startPredictionOf v net) s).
Proof. apply submit_case_of_variant. Qed.


(** X4: in the two variants with notifications, after any sequence of
    events every pending expiry lies within the next 5 seconds and a
    notification on screen has one pending, so 5 seconds without any event
    always leave the page without a notification. *)
Theorem notification_never_sticks (v : Session.variant) (evs : list Session.event) :
  Session.expiring (Session.run v evs)
  /\ AppState.error (Timeline.ui (Timeline.elapse 5000 (Session.run v evs))) = None.
Proof.
  split.
  - apply run_expiring.
  - apply quiet_five_seconds, run_expiring.
Qed.

(** ** Composing the handlers *)

Lemma check_closed_then_skipped
  (v : Session.variant) (s : AppState.state) (net1 net2 : fetch_outcome) :
  AppState.pollingActive (fst (exec (Session.checkPredictionStatusOf v net1) s)) = false ->
  exec (Session.checkPredictionStatusOf v net2)
       (fst (exec (Session.checkPredictionStatusOf v net1) s))
  = (fst (exec (Session.checkPredictionStatusOf v net1) s), []).
Proof.
  destruct (check_case_of_variant v s net1)
    as [Hno | st Hjob Hst Hc Hf | img Hjob | msg Hjob | msg st Hjob Hst];
    cbn [fst]; intros Hstop.
  - destruct v; cbn [Session.checkPredictionStatusOf];
      [now apply InlineCamera_check_guard | now apply ModalCamera_check_guard].
  - unfold AppState.pollingActive in Hstop. cbn in Hstop.
    rewrite Hjob, Hc, Hf in Hstop. discriminate.
  - destruct v; cbn [Session.checkPredictionStatusOf];
      [now apply InlineCamera_check_guard | now apply ModalCamera_check_guard].
  - destruct v; cbn [Session.checkPredictionStatusOf];
      [now apply InlineCamera_check_guard | now apply ModalCamera_check_guard].
  - destruct v; cbn [Session.checkPredictionStatusOf];
      [now apply InlineCamera_check_guard | now apply ModalCamera_check_guard].
Qed.

(** X5: once a status check has left the polling timer unregistered (the
    job was resolved or aborted, or there was none), a further status check
    run in the state it left changes nothing and makes no request, whatever
    the service would answer. *)
Theorem check_after_closing_is_noop
  (v : Session.variant) (s : AppState.state) (net1 net2 : fetch_outcome)
  (closed : AppState.pollingActive
              (fst (exec (Session.checkPredictionStatusOf v net1) s)) = false) :
  exec (Session.checkPredictionStatusOf v net2)
       (fst (exec (Session.checkPredictionStatusOf v net1) s))
  = (fst (exec (Session.checkPredictionStatusOf v net1) s), []).
Proof. now apply check_closed_then_skipped. Qed.

Lemma check_after_closing_is_noop_witness :
  exec (Session.checkPredictionStatusOf Session.Modal (Samples.answer Samples.queuedJob))
       (fst (exec (Session.checkPredictionStatusOf Session.Modal
                     (Samples.answer Samples.completedJob)) Samples.polling))
  = (fst (exec (Session.checkPredictionStatusOf Session.Modal
                  (Samples.answer Samples.completedJob)) Samples.polling), []).
Proof.
  apply (check_after_closing_is_noop Session.Modal Samples.polling
           (Samples.answer Samples.completedJob) (Samples.answer Samples.queuedJob)).
  reflexivity.
Defined.

(** X6: right after a reset, a submission of either variant with
    notifications makes no request: it only raises the warning that asks for
    a photo, whatever the state the reset was run from. *)
Theorem submit_after_reset_warns
  (v : Session.variant) (s : AppState.state) (net : fetch_outcome) :
  exec (Session.startPredictionOf v net) (fst (exec AppState.handleTryAgain s))
  = (AppState.with_error
       (Some (AppState.mkError "Please upload or take a photo of the model"
                               AppState.SevWarning))
       (fst (exec AppState.handleTryAgain s)),
     [SetTimeout 5000]).
Proof.
  destruct v; cbn [Session.startPredictionOf].
  - rewrite InlineCamera_submit_guard by (left; reflexivity). reflexivity.
  - rewrite ModalCamera_submit_guard by (left; reflexivity). reflexivity.
Qed.

(** ** A failed job *)

Section FailedJob.
Import AppState Outcome.

Variables (s : state) (r : response) (data : json).
Hypothesis job : truthy (predictionId s) = true.
Hypothesis success : ok r = true.
Hypothesis parsed : body r = Parsed data.

Lemma failed_without_reason (e : jsval) :
  getProp data "error" = Some e -> truthy e = false ->
  getProp data "status" = Some (Str "failed") ->
  exec (InlineCamera.checkPredictionStatus (Resolved r)) s
  = (aborted "Prediction failed without specific error message"
             (with_predictionStatus (Str "failed") s),
     [Fetch "GET" (statusUrl (predictionId s)) None; SetTimeout 5000])
  /\ exec (ModalCamera.checkPredictionStatus (Resolved r)) s
     = (aborted "Prediction failed without specific error message"
                (with_predictionStatus (Str "failed") s),
        [Fetch "GET" (statusUrl (predictionId s)) None; SetTimeout 5000]).
Proof.
  intros He Hne Hs. split.
  - unfold InlineCamera.checkPredictionStatus. run_handler. rewrite job. cbn.
    rewrite success. cbn. rewrite parsed. cbn. rewrite He. cbn. rewrite Hne. cbn.
    rewrite Hs. cbn. unfold or_else. rewrite Hne. reflexivity.
  - unfold ModalCamera.checkPredictionStatus. run_handler. rewrite job. cbn.
    rewrite parsed. cbn. rewrite success. cbn. rewrite He. cbn. rewrite Hne. cbn.
    rewrite Hs. cbn. unfold or_else. rewrite Hne. reflexivity.
Qed.

Lemma error_text_shown (reason : string) :
  getProp data "error" = Some (Str reason) -> reason <> "" ->
  exec (InlineCamera.checkPredictionStatus (Resolved r)) s
  = (aborted ("API Error: " ++ reason) s,
     [Fetch "GET" (statusUrl (predictionId s)) None; SetTimeout 5000])
  /\ exec (ModalCamera.checkPredictionStatus (Resolved r)) s
     = (aborted reason s,
        [Fetch "GET" (statusUrl (predictionId s)) None; SetTimeout 5000]).
Proof.
  intros He Hne.
  assert (Ht : truthy (Str reason) = true).
  { cbn. apply negb_true_iff. now apply String.eqb_neq. }
  split.
  - unfold InlineCamera.checkPredictionStatus. run_handler. rewrite job. cbn.
    rewrite success. cbn. rewrite parsed. cbn. rewrite He. cbn.
    cbn in Ht. rewrite Ht. reflexivity.
  - unfold ModalCamera.checkPredictionStatus. run_handler. rewrite job. cbn.
    rewrite parsed. cbn. rewrite success. cbn. rewrite He. cbn.
    cbn in Ht. rewrite Ht. reflexivity.
Qed.
End FailedJob.

(** X7: in the two variants with notifications, a successful answer with
    status [failed] and no (truthy) [error] field stores the status
    [failed], then aborts the job: the notification carries the fixed text
    [Prediction failed without specific error message], the loading flag is
    off, the job id cleared, and the result untouched. *)
Theorem failed_job_without_reason
  (s : AppState.state) (r : response) (data : json) (e : jsval)
  (job : truthy (AppState.predictionId s) = true)
  (success : ok r = true)
  (parsed : body r = Parsed data)
  (error_field : getProp data "error" = Some e)
  (no_error : truthy e = false)
  (failed : getProp data "status" = Some (Str "failed")) :
  exec (InlineCamera.checkPredictionStatus (Resolved r)) s
  = (Outcome.aborted "Prediction failed without specific error message"
       (AppState.with_predictionStatus (Str "failed") s),
     [Fetch "GET" (statusUrl (AppState.predictionId s)) None; SetTimeout 5000])
  /\ exec (ModalCamera.checkPredictionStatus (Resolved r)) s
     = (Outcome.aborted "Prediction failed without specific error message"
          (AppState.with_predictionStatus (Str "failed") s),
        [Fetch "GET" (statusUrl (AppState.predictionId s)) None; SetTimeout 5000]).
Proof. now apply failed_without_reason with (data := data) (e := e). Qed.

Lemma failed_job_without_reason_witness :
  exec (InlineCamera.checkPredictionStatus
          (Samples.answer (JObj [("status", JStr "failed")]))) Samples.polling
  = (Outcome.aborted "Prediction failed without specific error message"
       (AppState.with_predictionStatus (Str "failed") Samples.polling),
     [Fetch "GET" (statusUrl (AppState.predictionId Samples.polling)) None;
      SetTimeout 5000])
  /\ exec (ModalCamera.checkPredictionStatus
             (Samples.answer (JObj [("status", JStr "failed")]))) Samples.polling
     = (Outcome.aborted "Prediction failed without specific error message"
          (AppState.with_predictionStatus (Str "failed") Samples.polling),
        [Fetch "GET" (statusUrl (AppState.predictionId Samples.polling)) None;
         SetTimeout 5000]).
Proof.
  apply (failed_job_without_reason Samples.polling
           (mkResponse 200 "OK" (Parsed (JObj [("status", JStr "failed")])))
           (JObj [("status", JStr "failed")]) Undefined); reflexivity.
Defined.

(** X8: in the two variants with notifications, a successful answer that
    carries a non-empty [error] text aborts the job whatever its [status]
    field says, and the status is not even stored: the notification shows
    the text, prefixed with [API Error: ] in the inline-camera variant and
    as it is in the modal-camera variant.  So the reason of a failed job that
    comes with one reaches the user, and the fixed text of the [failed]
    branch is only ever shown for jobs without one. *)
Theorem error_text_reaches_user
  (s : AppState.state) (r : response) (data : json) (reason : string)
  (job : truthy (AppState.predictionId s) = true)
  (success : ok r = true)
  (parsed : body r = Parsed data)
  (error_field : getProp data "error" = Some (Str reason))
  (has_text : reason <> "") :
  exec (InlineCamera.checkPredictionStatus (Resolved r)) s
  = (Outcome.aborted ("API Error: " ++ reason) s,
     [Fetch "GET" (statusUrl (AppState.predictionId s)) None; SetTimeout 5000])
  /\ exec (ModalCamera.checkPredictionStatus (Resolved r)) s
     = (Outcome.aborted reason s,
        [Fetch "GET" (statusUrl (AppState.predictionId s)) None; SetTimeout 5000]).
Proof. now apply error_text_shown with (data := data). Qed.

Lemma error_text_reaches_user_witness :
  exec (InlineCamera.checkPredictionStatus
          (Samples.answer (JObj [("status", JStr "failed");
                                 ("error", JStr "pose not detected")])))
       Samples.polling
  = (Outcome.aborted ("API Error: " ++ "pose not detected") Samples.polling,
     [Fetch "GET" (statusUrl (AppState.predictionId Samples.polling)) None;
      SetTimeout 5000])
  /\ exec (ModalCamera.checkPredictionStatus
             (Samples.answer (JObj [("status", JStr "failed");
                                    ("error", JStr "pose not detected")])))
          Samples.polling
     = (Outcome.aborted "pose not detected" Samples.polling,
        [Fetch "GET" (statusUrl (AppState.predictionId Samples.polling)) None;
         SetTimeout 5000]).
Proof.
  apply (error_text_reaches_user Samples.polling
           (mkResponse 200 "OK"
              (Parsed (JObj [("status", JStr "failed");
                             ("error", JStr "pose not detected")])))
           (JObj [("status", JStr "failed"); ("error", JStr "pose not detected")])
           "pose not detected").
  - reflexivity.
  - reflexivity.
  - reflexivity.
  - reflexivity.
  - discriminate.
Defined.

(** ** The two variants with notifications side by side *)

Section SideBySide.
Import AppState Outcome Cases.

Lemma checks_agree (s : state) (net : fetch_outcome) :
  blank (fst (exec (InlineCamera.checkPredictionStatus net) s))
  = blank (fst (exec (ModalCamera.checkPredictionStatus net) s))
  /\ snd (exec (InlineCamera.checkPredictionStatus net) s)
     = snd (exec (ModalCamera.checkPredictionStatus net) s).
Proof.
  destruct (truthy (predictionId s)) eqn:job.
  - unfold InlineCamera.checkPredictionStatus, ModalCamera.checkPredictionStatus.
    run_handler. rewrite job. cbn.
    destruct net as [msg | r]; cbn; [now split |].
    destruct (body r) as [data | msg]; cbn;
      [| destruct (ok r); cbn; now split].
    destruct (ok r); cbn; [| now split].
    destruct (getProp data "error") as [e |]; cbn; [| now split].
    destruct (truthy e); cbn; now split.
  - rewrite InlineCamera_check_guard, ModalCamera_check_guard by assumption.
    now split.
Qed.

Lemma submissions_agree (s : state) (net : fetch_outcome) :
  blank (fst (exec (InlineCamera.startPrediction net) s))
  = blank (fst (exec (ModalCamera.startPrediction net) s))
  /\ snd (exec (InlineCamera.startPrediction net) s)
     = snd (exec (ModalCamera.startPrediction net) s).
Proof.
  unfold InlineCamera.startPrediction, ModalCamera.startPrediction. run_handler.
  destruct (present (modelPreview s)); cbn; [| now split].
  destruct (garmentUrl s =? ""); cbn; [now split |].
  destruct net as [msg | r]; cbn; [now split |].
  destruct (body r) as [data | msg]; cbn;
    [| destruct (ok r); cbn; now split].
  destruct (ok r); cbn; [| now split].
  destruct (getProp data "error") as [e |]; cbn; [| now split].
  destruct (truthy e); cbn; now split.
Qed.
End SideBySide.

(** X9: on every state and every answer of the remote service, the status
    checks and the submissions of the inline-camera and of the modal-camera
    variant make the same requests, register the same timers and leave the
    same state, up to the text of the notification: the two variants differ
    in how they word an error, never in what they do about it. *)
Theorem variants_differ_only_in_wording (s : AppState.state) (net : fetch_outcome) :
  (Cases.blank (fst (exec (InlineCamera.checkPredictionStatus net) s))
   = Cases.blank (fst (exec (ModalCamera.checkPredictionStatus net) s))
   /\ snd (exec (InlineCamera.checkPredictionStatus net) s)
      = snd (exec (ModalCamera.checkPredictionStatus net) s))
  /\ (Cases.blank (fst (exec (InlineCamera.startPrediction net) s))
      = Cases.blank (fst (exec (ModalCamera.startPrediction net) s))
      /\ snd (exec (InlineCamera.startPrediction net) s)
         = snd (exec (ModalCamera.startPrediction net) s)).
Proof.
  split.
  - apply checks_agree.
  - apply submissions_agree.
Qed.

(** ** Acquiring the inputs *)

Section Inputs.
Import AppState FileUpload.

Lemma upload_not_an_image (f : file) (s : state) :
  prefix "image/" (mime f) = false ->
  exec (handleFileUpload (Some f)) s
  = (with_error (Some (mkError "Please select an image file" SevError)) s,
     [SetTimeout 5000]).
Proof.
  intros Hty. unfold handleFileUpload. rewrite Hty. reflexivity.
Qed.

Lemma upload_image (f : file) (s : state) :
  prefix "image/" (mime f) = true ->
  exec (handleFileUpload (Some f)) s
  = (with_error None
       (with_modelPreview (match contents f with
                           | Ok url => Some url
                           | Throw _ => None
                           end) s),
     match contents f with
     | Ok _ => []
     | Throw _ => [SetTimeout 5000]
     end).
Proof.
  intros Hty. unfold handleFileUpload. rewrite Hty. cbn [negb].
  destruct (contents f); reflexivity.
Qed.

Lemma garment_loaded (param : option string) (wellFormed : bool) (s : state) :
  exec (loadGarment param wellFormed) s
  = if present param then
      if wellFormed then (with_garmentUrl (text param) s, [])
      else (with_error (Some (mkError "Invalid garment image URL provided"
                                      SevWarning)) s,
            [SetTimeout 5000])
    else (s, []).
Proof.
  unfold loadGarment. destruct (present param); [destruct wellFormed |]; reflexivity.
Qed.

Lemma garment_loaded_url (param : option string) (wellFormed : bool)
      (s : UrlInput.state) :
  exec (loadGarment_url param wellFormed) s
  = (UrlInput.mkState (UrlInput.modelUrl s) (UrlInput.isLoading s)
       (UrlInput.modelPreview s) (UrlInput.generatedResult s)
       (UrlInput.predictionId s) (UrlInput.predictionStatus s)
       (if present param && wellFormed then text param else UrlInput.garmentUrl s),
     []).
Proof.
  unfold loadGarment_url.
  destruct (present param); [destruct wellFormed |]; cbn; now destruct s.
Qed.
End Inputs.

(** X10: in the two variants with notifications, once the read of a picked
    image file has ended the page shows no notification, whether the read
    succeeded or failed: a successful read puts its data URL in the preview;
    a failed read clears the preview, and the error notification raised by
    [onerror] is taken down by [onloadend] in the same turn, leaving only
    its timer behind. *)
Theorem image_file_read_ends_without_notification
  (f : FileUpload.file) (s : AppState.state)
  (image : prefix "image/" (FileUpload.mime f) = true) :
  exec (FileUpload.handleFileUpload (Some f)) s
  = (AppState.with_error None
       (AppState.with_modelPreview
          (match FileUpload.contents f with
           | Ok url => Some url
           | Throw _ => None
           end) s),
     match FileUpload.contents f with
     | Ok _ => []
     | Throw _ => [SetTimeout 5000]
     end).
Proof. now apply upload_image. Qed.

Lemma image_file_read_ends_without_notification_witness :
  exec (FileUpload.handleFileUpload
          (Some (FileUpload.mkFile "image/png" (Throw "NotReadableError"))))
       Samples.ready
  = (AppState.with_error None (AppState.with_modelPreview None Samples.ready),
     [SetTimeout 5000]).
Proof.
  apply (image_file_read_ends_without_notification
           (FileUpload.mkFile "image/png" (Throw "NotReadableError")) Samples.ready).
  reflexivity.
Defined.

(** ** From the inputs to the request *)

Section OneClick.
Import AppState Outcome Cases.

Lemma enabled_inputs (s : state) :
  View.generateDisabled s = false ->
  present (modelPreview s) = true /\ (garmentUrl s =? "") = false
  /\ isLoading s = false.
Proof.
  unfold View.generateDisabled. intros H.
  apply orb_false_iff in H as [H Hl]. apply orb_false_iff in H as [Hm Hg].
  apply negb_false_iff in Hm. now repeat split.
Qed.

Lemma click_sends_once (v : Session.variant) (s : state) (net : fetch_outcome) :
  View.generateDisabled s = false ->
  filter isFetch (snd (exec (Session.startPredictionOf v net) s))
  = [submitRequest s].
Proof.
  intros Hen. apply enabled_inputs in Hen as [Hm [Hg _]].
  destruct v; cbn [Session.startPredictionOf].
  - destruct (InlineCamera_submit_outcome s Hm Hg net)
      as [[id [_ ->]] | [msg ->]]; reflexivity.
  - destruct (ModalCamera_submit_outcome s Hm Hg net)
      as [[id [_ ->]] | [msg ->]]; reflexivity.
Qed.

Lemma url_click_sends_once (s : UrlInput.state) (net : fetch_outcome) :
  View.generateDisabled_url s = false ->
  filter isFetch (snd (exec (UrlInput.startPrediction net) s))
  = [Fetch "POST" (API_BASE_URL ++ "/run")
           (Some (runPayload (text (UrlInput.modelPreview s)) (UrlInput.garmentUrl s)))].
Proof.
  unfold View.generateDisabled_url. intros H.
  apply orb_false_iff in H as [H _]. apply orb_false_iff in H as [Hm Hg].
  apply negb_false_iff in Hm.
  unfold UrlInput.startPrediction. run_handler. rewrite Hm, Hg. cbn.
  destruct net as [msg | r]; cbn; [reflexivity |].
  destruct (body r) as [data | msg]; cbn; [| reflexivity].
  destruct (getProp data "error") as [e |]; cbn; [| reflexivity].
  destruct (truthy e); cbn; [reflexivity |].
  destruct (getProp data "id"); reflexivity.
Qed.

Lemma upload_then_click (v : Session.variant) (f : FileUpload.file) (url : string)
      (s : state) (net : fetch_outcome) :
  prefix "image/" (FileUpload.mime f) = true ->
  FileUpload.contents f = Ok url -> url <> "" ->
  garmentUrl s <> "" -> isLoading s = false ->
  View.generateDisabled (fst (exec (FileUpload.handleFileUpload (Some f)) s)) = false
  /\ filter isFetch
       (snd (exec (Session.startPredictionOf v net)
                  (fst (exec (FileUpload.handleFileUpload (Some f)) s))))
     = [Fetch "POST" (API_BASE_URL ++ "/run")
              (Some (runPayload url (garmentUrl s)))].
Proof.
  intros Hty Hread Hurl Hg Hl.
  assert (Hen : View.generateDisabled
                  (fst (exec (FileUpload.handleFileUpload (Some f)) s)) = false).
  { rewrite upload_image by assumption. rewrite Hread.
    unfold View.generateDisabled. cbn.
    apply String.eqb_neq in Hurl, Hg. now rewrite Hurl, Hg, Hl. }
  split; [exact Hen |].
  rewrite (click_sends_once v _ net Hen).
  rewrite upload_image by assumption. rewrite Hread. reflexivity.
Qed.
End OneClick.

(** X11: while the Generate button is enabled, a click on it makes exactly
    one request in every variant, whatever the remote service answers: a
    [POST] to [/run] whose body carries the current preview as
    [model_image], the garment URL as [garment_image] and the category
    [auto]. *)
Theorem enabled_click_sends_one_request
  (v : Session.variant) (s : AppState.state) (s1 : UrlInput.state)
  (net : fetch_outcome)
  (enabled : View.generateDisabled s = false)
  (enabled1 : View.generateDisabled_url s1 = false) :
  filter isFetch (snd (exec (Session.startPredictionOf v net) s))
  = [Fetch "POST" (API_BASE_URL ++ "/run")
           (Some (runPayload (text (AppState.modelPreview s)) (AppState.garmentUrl s)))]
  /\ filter isFetch (snd (exec (UrlInput.startPrediction net) s1))
     = [Fetch "POST" (API_BASE_URL ++ "/run")
              (Some (runPayload (text (UrlInput.modelPreview s1))
                                (UrlInput.garmentUrl s1)))].
Proof.
  split.
  - now apply click_sends_once.
  - now apply url_click_sends_once.
Qed.

Lemma enabled_click_sends_one_request_witness :
  filter isFetch
    (snd (exec (Session.startPredictionOf Session.Inline Samples.serverDown)
               Samples.ready))
  = [Fetch "POST" (API_BASE_URL ++ "/run")
           (Some (runPayload (text (AppState.modelPreview Samples.ready))
                             (AppState.garmentUrl Samples.ready)))]
  /\ filter isFetch
       (snd (exec (UrlInput.startPrediction Samples.serverDown) Samples.urlReady))
     = [Fetch "POST" (API_BASE_URL ++ "/run")
              (Some (runPayload (text (UrlInput.modelPreview Samples.urlReady))
                                (UrlInput.garmentUrl Samples.urlReady)))].
Proof.
  apply (enabled_click_sends_one_request Session.Inline Samples.ready
           Samples.urlReady Samples.serverDown); reflexivity.
Defined.

(** X12: in the two variants with notifications, when an image file has
    been read into a non-empty data URL while a garment is set and nothing
    is loading, the Generate button is enabled, and the click that follows
    sends exactly one request, carrying that data URL and that garment. *)
Theorem uploaded_photo_reaches_request
  (v : Session.variant) (f : FileUpload.file) (url : string)
  (s : AppState.state) (net : fetch_outcome)
  (image : prefix "image/" (FileUpload.mime f) = true)
  (read : FileUpload.contents f = Ok url)
  (non_empty : url <> "")
  (garment : AppState.garmentUrl s <> "")
  (idle : AppState.isLoading s = false) :
  View.generateDisabled (fst (exec (FileUpload.handleFileUpload (Some f)) s)) = false
  /\ filter isFetch
       (snd (exec (Session.startPredictionOf v net)
                  (fst (exec (FileUpload.handleFileUpload (Some f)) s))))
     = [Fetch "POST" (API_BASE_URL ++ "/run")
              (Some (runPayload url (AppState.garmentUrl s)))].
Proof. now apply upload_then_click. Qed.

Lemma uploaded_photo_reaches_request_witness :
  View.generateDisabled
    (fst (exec (FileUpload.handleFileUpload
                  (Some (FileUpload.mkFile "image/png" (Ok "data:image/png;base64,BBBB"))))
               Samples.completed)) = false
  /\ filter isFetch
       (snd (exec (Session.startPredictionOf Session.Modal Samples.serverDown)
                  (fst (exec (FileUpload.handleFileUpload
                                (Some (FileUpload.mkFile "image/png"
                                         (Ok "data:image/png;base64,BBBB"))))
                             Samples.completed))))
     = [Fetch "POST" (API_BASE_URL ++ "/run")
              (Some (runPayload "data:image/png;base64,BBBB"
                                (AppState.garmentUrl Samples.completed)))].
Proof.
  apply (uploaded_photo_reaches_request Session.Modal
           (FileUpload.mkFile "image/png" (Ok "data:image/png;base64,BBBB"))
           "data:image/png;base64,BBBB" Samples.completed Samples.serverDown).
  - reflexivity.
  - reflexivity.
  - discriminate.
  - discriminate.
  - reflexivity.
Defined.

(** ** A whole job *)

Section WholeJob.
Import AppState Outcome.

Variables (v : Session.variant) (s : state).
Variables (id st url : string) (more : list json).
Hypothesis enabled : View.generateDisabled s = false.
Hypothesis has_id : id <> "".
Hypothesis has_status : st <> "".
Hypothesis not_completed : st <> "completed".
Hypothesis not_failed : st <> "failed".

Let created : fetch_outcome := Samples.answer (JObj [("id", JStr id)]).
Let progress : fetch_outcome := Samples.answer (JObj [("status", JStr st)]).
Let finished : fetch_outcome :=
  Samples.answer (JObj [("status", JStr "completed");
                        ("output", JArr (JStr url :: more))]).

Lemma truthy_text (x : string) : x <> "" -> truthy (Str x) = true.
Proof. intros H. cbn. apply negb_true_iff. now apply String.eqb_neq. Qed.

Lemma job_created :
  exec (Session.startPredictionOf v created) s
  = (submitted (Str id) s, [submitRequest s]).
Proof.
  apply enabled_inputs in enabled as [Hm [Hg _]].
  destruct v; cbn [Session.startPredictionOf].
  - apply (InlineCamera_submit_success s Hm Hg _ (JObj [("id", JStr id)])
             Undefined (Str id)); try reflexivity.
    now apply truthy_text.
  - apply (ModalCamera_submit_success s Hm Hg _ (JObj [("id", JStr id)])
             Undefined (Str id)); try reflexivity.
    now apply truthy_text.
Qed.

Lemma job_progresses :
  exec (Session.checkPredictionStatusOf v progress) (submitted (Str id) s)
  = (with_predictionStatus (Str st) (submitted (Str id) s),
     [Fetch "GET" (statusUrl (Str id)) None]).
Proof.
  assert (Hc : is_str (Str st) "completed" = false)
    by (cbn; now apply String.eqb_neq).
  assert (Hf : is_str (Str st) "failed" = false)
    by (cbn; now apply String.eqb_neq).
  destruct v; cbn [Session.checkPredictionStatusOf].
  - apply (InlineCamera_other_status _ (JObj [("status", JStr st)]) Undefined (Str st));
      try reflexivity; try assumption; now apply truthy_text.
  - apply (ModalCamera_other_status _ (JObj [("status", JStr st)]) Undefined (Str st));
      try reflexivity; try assumption; now apply truthy_text.
Qed.

Lemma job_finishes :
  exec (Session.checkPredictionStatusOf v finished)
       (with_predictionStatus (Str st) (submitted (Str id) s))
  = (resolved (Str url) (submitted (Str id) s),
     [Fetch "GET" (statusUrl (Str id)) None]).
Proof.
  unfold finished, Samples.answer.
  destruct v; cbn [Session.checkPredictionStatusOf].
  - erewrite InlineCamera_completed
      with (data := JObj [("status", JStr "completed");
                          ("output", JArr (JStr url :: more))])
           (e := Undefined) (v := Str "completed") (img := JStr url) (more := more);
      try reflexivity.
    now apply truthy_text.
  - erewrite ModalCamera_completed
      with (data := JObj [("status", JStr "completed");
                          ("output", JArr (JStr url :: more))])
           (e := Undefined) (v := Str "completed") (img := JStr url) (more := more);
      try reflexivity.
    now apply truthy_text.
Qed.
End WholeJob.

(** X13: in the two variants with notifications, from any state in which
    the Generate button is enabled: a click answered with a job id, a status
    check answered with a non-terminal status, then a status check answered
    [completed] with a non-empty output.  After the second step the button
    label shows that status; after the third the first output is the result,
    the loading flag is off, the job id is cleared, the polling timer is no
    longer registered, and the preview and garment are the ones submitted. *)
Theorem submitted_job_runs_to_its_result
  (v : Session.variant) (s : AppState.state)
  (id st url : string) (more : list json)
  (enabled : View.generateDisabled s = false)
  (has_id : id <> "")
  (has_status : st <> "")
  (not_completed : st <> "completed")
  (not_failed : st <> "failed") :
  let s1 := fst (exec (Session.startPredictionOf v
                         (Samples.answer (JObj [("id", JStr id)]))) s) in
  let s2 := fst (exec (Session.checkPredictionStatusOf v
                         (Samples.answer (JObj [("status", JStr st)]))) s1) in
  let s3 := fst (exec (Session.checkPredictionStatusOf v
                         (Samples.answer
                            (JObj [("status", JStr "completed");
                                   ("output", JArr (JStr url :: more))]))) s2) in
  View.buttonLabel s2 = "Status: " ++ st
  /\ s3 = Outcome.resolved (Str url) (Outcome.submitted (Str id) s)
  /\ AppState.generatedResult s3 = Str url
  /\ AppState.isLoading s3 = false
  /\ AppState.predictionId s3 = null
  /\ AppState.pollingActive s3 = false
  /\ AppState.modelPreview s3 = AppState.modelPreview s
  /\ AppState.garmentUrl s3 = AppState.garmentUrl s.
Proof.
  intros s1 s2 s3. subst s1 s2 s3.
  rewrite (job_created v s id enabled has_id). cbn [fst].
  rewrite (job_progresses v s id st has_id has_status not_completed not_failed).
  cbn [fst].
  rewrite (job_finishes v s id st url more has_id). cbn [fst].
  repeat apply conj; try reflexivity.
  unfold View.buttonLabel. cbn.
  apply String.eqb_neq in has_status. now rewrite has_status.
Qed.

Lemma submitted_job_runs_to_its_result_witness :
  let s1 := fst (exec (Session.startPredictionOf Session.Inline
                         (Samples.answer (JObj [("id", JStr "job1")]))) Samples.ready) in
  let s2 := fst (exec (Session.checkPredictionStatusOf Session.Inline
                         (Samples.answer (JObj [("status", JStr "processing")]))) s1) in
  let s3 := fst (exec (Session.checkPredictionStatusOf Session.Inline
                         (Samples.answer
                            (JObj [("status", JStr "completed");
                                   ("output", JArr (JStr "https://x/result.jpg" :: []))])))
                      s2) in
  View.buttonLabel s2 = "Status: " ++ "processing"
  /\ s3 = Outcome.resolved (Str "https://x/result.jpg")
                           (Outcome.submitted (Str "job1") Samples.ready)
  /\ AppState.generatedResult s3 = Str "https://x/result.jpg"
  /\ AppState.isLoading s3 = false
  /\ AppState.predictionId s3 = null
  /\ AppState.pollingActive s3 = false
  /\ AppState.modelPreview s3 = AppState.modelPreview Samples.ready
  /\ AppState.garmentUrl s3 = AppState.garmentUrl Samples.ready.
Proof.
  apply (submitted_job_runs_to_its_result Session.Inline Samples.ready
           "job1" "processing" "https://x/result.jpg" []);
    first [reflexivity | discriminate].
Defined.

(** ** The URL-input variant *)

Section UrlVariant.

Lemma url_handlers_ignore_http_status (r r' : response) (s : UrlInput.state) :
  body r = body r' ->
  exec (UrlInput.startPrediction (Resolved r)) s
  = exec (UrlInput.startPrediction (Resolved r')) s
  /\ exec (UrlInput.checkPredictionStatus (Resolved r)) s
     = exec (UrlInput.checkPredictionStatus (Resolved r')) s.
Proof.
  intros Hb. split.
  - unfold UrlInput.startPrediction. run_handler. now rewrite Hb.
  - unfold UrlInput.checkPredictionStatus. run_handler. now rewrite Hb.
Qed.

Lemma url_completed_without_output (r : response) (data : json) (out : jsval)
      (s : UrlInput.state) :
  truthy (UrlInput.predictionId s) = true ->
  body r = Parsed data ->
  getProp data "status" = Some (Str "completed") ->
  getProp data "output" = Some out -> truthy out = false ->
  exec (UrlInput.checkPredictionStatus (Resolved r)) s
  = (UrlInput.mkState (UrlInput.modelUrl s) (UrlInput.isLoading s)
       (UrlInput.modelPreview s) (UrlInput.generatedResult s)
       (UrlInput.predictionId s) (Str "completed") (UrlInput.garmentUrl s),
     [Fetch "GET" (statusUrl (UrlInput.predictionId s)) None]).
Proof.
  intros job Hb Hs Ho Hout. unfold UrlInput.checkPredictionStatus. run_handler.
  rewrite job. cbn. rewrite Hb. cbn. rewrite Hs. cbn. rewrite Ho. cbn.
  now rewrite Hout.
Qed.
End UrlVariant.

(** X14: the URL-input variant never looks at the HTTP status: two answers
    with the same body, whatever their status codes and status texts, make a
    submission and a status check end in the same state with the same
    requests. *)
Theorem url_variant_ignores_http_status
  (r r' : response) (s : UrlInput.state)
  (same_body : body r = body r') :
  exec (UrlInput.startPrediction (Resolved r)) s
  = exec (UrlInput.startPrediction (Resolved r')) s
  /\ exec (UrlInput.checkPredictionStatus (Resolved r)) s
     = exec (UrlInput.checkPredictionStatus (Resolved r')) s.
Proof. now apply url_handlers_ignore_http_status. Qed.

Lemma url_variant_ignores_http_status_witness :
  exec (UrlInput.startPrediction
          (Resolved (mkResponse 200 "OK" (Parsed (JObj [("id", JStr "job1")])))))
       Samples.urlReady
  = exec (UrlInput.startPrediction
            (Resolved (mkResponse 500 "Internal Server Error"
                                  (Parsed (JObj [("id", JStr "job1")])))))
         Samples.urlReady
  /\ exec (UrlInput.checkPredictionStatus
             (Resolved (mkResponse 200 "OK" (Parsed (JObj [("id", JStr "job1")])))))
          Samples.urlReady
     = exec (UrlInput.checkPredictionStatus
               (Resolved (mkResponse 500 "Internal Server Error"
                                     (Parsed (JObj [("id", JStr "job1")])))))
            Samples.urlReady.
Proof.
  apply (url_variant_ignores_http_status
           (mkResponse 200 "OK" (Parsed (JObj [("id", JStr "job1")])))
           (mkResponse 500 "Internal Server Error" (Parsed (JObj [("id", JStr "job1")])))
           Samples.urlReady).
  reflexivity.
Defined.

(** X15: in the URL-input variant, an answer with status [completed] whose
    [output] is absent or otherwise falsy stores the status and nothing
    else: the job id and the loading flag stay as they were, and since the
    stored status is [completed] the polling timer is no longer registered,
    so no later tick can take the page out of that state. *)
Theorem url_variant_completed_without_output_stalls
  (r : response) (data : json) (out : jsval) (s : UrlInput.state)
  (job : truthy (UrlInput.predictionId s) = true)
  (parsed : body r = Parsed data)
  (completed : getProp data "status" = Some (Str "completed"))
  (output_field : getProp data "output" = Some out)
  (no_output : truthy out = false) :
  exec (UrlInput.checkPredictionStatus (Resolved r)) s
  = (UrlInput.mkState (UrlInput.modelUrl s) (UrlInput.isLoading s)
       (UrlInput.modelPreview s) (UrlInput.generatedResult s)
       (UrlInput.predictionId s) (Str "completed") (UrlInput.garmentUrl s),
     [Fetch "GET" (statusUrl (UrlInput.predictionId s)) None])
  /\ UrlInput.pollingActive
       (fst (exec (UrlInput.checkPredictionStatus (Resolved r)) s)) = false.
Proof.
  rewrite (url_completed_without_output r data out s) by assumption.
  split; [reflexivity |].
  unfold UrlInput.pollingActive. cbn. now rewrite andb_false_r.
Qed.

Lemma url_variant_completed_without_output_stalls_witness :
  exec (UrlInput.checkPredictionStatus
          (Samples.answer (JObj [("status", JStr "completed")]))) Samples.urlPolling
  = (UrlInput.mkState (UrlInput.modelUrl Samples.urlPolling)
       (UrlInput.isLoading Samples.urlPolling)
       (UrlInput.modelPreview Samples.urlPolling)
       (UrlInput.generatedResult Samples.urlPolling)
       (UrlInput.predictionId Samples.urlPolling) (Str "completed")
       (UrlInput.garmentUrl Samples.urlPolling),
     [Fetch "GET" (statusUrl (UrlInput.predictionId Samples.urlPolling)) None])
  /\ UrlInput.pollingActive
       (fst (exec (UrlInput.checkPredictionStatus
                     (Samples.answer (JObj [("status", JStr "completed")])))
                  Samples.urlPolling)) = false.
Proof.
  apply (url_variant_completed_without_output_stalls
           (mkResponse 200 "OK" (Parsed (JObj [("status", JStr "completed")])))
           (JObj [("status", JStr "completed")]) Undefined Samples.urlPolling);
    reflexivity.
Defined.

(** ** When the inline capture leaves the camera on *)

Lemma capture_live (cam : InlineCamera.camera) (s : AppState.state) :
  cameraLive (snd (exec (InlineCamera.handleCameraUpload cam) s))
  = InlineCamera.inputRef cam && InlineCamera.supported cam
    && Cases.succeeded (InlineCamera.permission cam)
    && (negb (Cases.succeeded (InlineCamera.playback cam))
        || negb (InlineCamera.context2d cam)).
Proof.
  unfold InlineCamera.handleCameraUpload. run_handler.
  destruct (InlineCamera.inputRef cam); cbn; [| reflexivity].
  destruct (InlineCamera.supported cam); cbn; [| reflexivity].
  destruct (InlineCamera.permission cam) as [[] | msg]; cbn; [| reflexivity].
  destruct (InlineCamera.playback cam) as [[] | msg]; cbn; [| reflexivity].
  destruct (InlineCamera.context2d cam); cbn; [| reflexivity].
  now destruct (InlineCamera.dataUrl cam).
Qed.

(** X16: after a run of the inline capture, a media stream is still running
    exactly when the handler got past its ref guard and the support test,
    the camera was granted, and then the playback was rejected or the canvas
    gave no 2D context; in every other run (including a failed encoding) no
    stream is left running. *)
Theorem inline_capture_leaves_camera_on_exactly_when
  (cam : InlineCamera.camera) (s : AppState.state) :
  cameraLive (snd (exec (InlineCamera.handleCameraUpload cam) s))
  = InlineCamera.inputRef cam && InlineCamera.supported cam
    && Cases.succeeded (InlineCamera.permission cam)
    && (negb (Cases.succeeded (InlineCamera.playback cam))
        || negb (InlineCamera.context2d cam)).
Proof. apply capture_live. Qed.

(** ** The camera modal used one step at a time *)

Section PatientUse.
Import CameraModal CameraUse.








End PatientUse.



(** ** The pixels of the picture *)

Lemma photo_pixel (m : CameraModal.modal) (video : CameraModal.bitmap) (x y : nat) :
  CameraModal.mounted m = true ->
  CameraModal.rectangular video ->
  x < CameraModal.videoWidth video ->
  y < CameraModal.videoHeight video ->
  exists picture,
    snd (CameraModal.takePhoto video true m) = Some picture
    /\ CameraModal.videoHeight picture = CameraModal.videoHeight video
    /\ List.length (nth y picture []) = CameraModal.videoWidth video
    /\ nth x (nth y picture []) 0
       = nth (CameraModal.videoWidth video - 1 - x) (nth y video []) 0.
Proof.
  intros Hm Hrect Hx Hy.
  exists (CameraModal.mirrored video).
  split; [now apply takePhoto_mirrors |].
  unfold CameraModal.mirrored, CameraModal.videoHeight in *.
  assert (Hrow : List.length (nth y video []) = CameraModal.videoWidth video).
  { unfold CameraModal.rectangular in Hrect. rewrite Forall_forall in Hrect.
    apply Hrect. now apply nth_In. }
  assert (Hnth : nth y (map (@rev CameraModal.pixel) video) []
                 = rev (nth y video []))
    by exact (map_nth (@rev CameraModal.pixel) video [] y).
  rewrite Hnth, length_map, length_rev.
  repeat split; [exact Hrow |].
  rewrite rev_nth by (rewrite Hrow; exact Hx).
  rewrite Hrow. f_equal. lia.
Qed.

(** X18: for a mounted camera modal with a 2D context and a rectangular
    frame, whatever camera is selected, the picture handed to [onCapture] has
    the height and the width of the frame, and its pixel at column [x] of row
    [y] is the pixel of the frame at column [width - 1 - x] of the same
    row. *)
Theorem photo_is_the_frame_flipped_left_to_right
  (m : CameraModal.modal) (video : CameraModal.bitmap) (x y : nat)
  (open : CameraModal.mounted m = true)
  (rect : CameraModal.rectangular video)
  (column : x < CameraModal.videoWidth video)
  (row : y < CameraModal.videoHeight video) :
  exists picture,
    snd (CameraModal.takePhoto video true m) = Some picture
    /\ CameraModal.videoHeight picture = CameraModal.videoHeight video
    /\ List.length (nth y picture []) = CameraModal.videoWidth video
    /\ nth x (nth y picture []) 0
       = nth (CameraModal.videoWidth video - 1 - x) (nth y video []) 0.
Proof. now apply photo_pixel. Qed.

Lemma photo_is_the_frame_flipped_left_to_right_witness :
  exists picture,
    snd (CameraModal.takePhoto Samples.frame true Samples.backCamera) = Some picture
    /\ CameraModal.videoHeight picture = CameraModal.videoHeight Samples.frame
    /\ List.length (nth 1 picture []) = CameraModal.videoWidth Samples.frame
    /\ nth 0 (nth 1 picture []) 0
       = nth (CameraModal.videoWidth Samples.frame - 1 - 0) (nth 1 Samples.frame []) 0.
Proof.
  apply (photo_is_the_frame_flipped_left_to_right Samples.backCamera Samples.frame 0 1).
  - reflexivity.
  - repeat constructor.
  - cbn. lia.
  - cbn. lia.
Defined.

(** ** The inputs of the URL-input variant *)

Section UrlInputs.


End UrlInputs.


